(** * The HAProxy CI build-matrix generator ([.github/matrix.py])

    A shallow embedding of the script and the properties of its
    specification.  A Python [str] is a Rocq [string]; one character
    stands for one code point below 256 (every literal of the script is
    ASCII, the only other characters come from the two HTTP bodies). *)

From Stdlib Require Import String Ascii List Bool Arith NArith Lia Sorted Permutation.
Import ListNotations.
Open Scope string_scope.
Set Warnings "-register-all".

(** ** Python string operations used by the script *)

Module PyStr.

(** [s.startswith(p)] *)
Fixpoint startswith (p s : string) : bool :=
  match p, s with
  | EmptyString, _ => true
  | String _ _, EmptyString => false
  | String a p', String b s' => Ascii.eqb a b && startswith p' s'
  end.

(** [needle in hay] *)
Fixpoint contains (needle hay : string) : bool :=
  startswith needle hay
  || match hay with
     | EmptyString => false
     | String _ hay' => contains needle hay'
     end.

(** [s.replace(old, new)] for a non-empty [old]: occurrences are found
    from the left and do not overlap; [skip] counts the characters of
    the occurrence just replaced that are still to be dropped. *)
Fixpoint replace_from (old new : string) (skip : nat) (s : string) : string :=
  match s with
  | EmptyString => EmptyString
  | String c s' =>
      match skip with
      | S k => replace_from old new k s'
      | O =>
          if startswith old s
          then new ++ replace_from old new (String.length old - 1) s'
          else String c (replace_from old new 0 s')
      end
  end.

(** With an empty [old], Python puts [new] before every character and
    at the end. *)
Fixpoint intersperse (new s : string) : string :=
  match s with
  | EmptyString => new
  | String c s' => new ++ String c (intersperse new s')
  end.

Definition replace (old new s : string) : string :=
  match old with
  | EmptyString => intersperse new s
  | String _ _ => replace_from old new 0 s
  end.

(** [c.lower()] on the code points below 256: A-Z and the Latin-1
    capitals (0xC0-0xDE without the multiplication sign 0xD7). *)
Definition lower_char (c : ascii) : ascii :=
  let n := nat_of_ascii c in
  if ((65 <=? n) && (n <=? 90)
      || (192 <=? n) && (n <=? 222) && negb (n =? 215))%nat
  then ascii_of_nat (n + 32)
  else c.

Fixpoint lower (s : string) : string :=
  match s with
  | EmptyString => EmptyString
  | String c s' => String (lower_char c) (lower s')
  end.

(** [s[n:]] *)
Fixpoint slice_from (n : nat) (s : string) : string :=
  match n, s with
  | O, _ => s
  | S _, EmptyString => EmptyString
  | S k, String _ s' => slice_from k s'
  end.

(** [a > b] on strings: code-point lexicographic order. *)
Definition gt (a b : string) : bool := String.ltb b a.

(** [sep.join(l)] *)
Fixpoint join (sep : string) (l : list string) : string :=
  match l with
  | [] => ""
  | [x] => x
  | x :: rest => x ++ sep ++ join sep rest
  end.

(** [s * n] *)
Fixpoint repeat_str (s : string) (n : nat) : string :=
  match n with
  | O => ""
  | S k => s ++ repeat_str s k
  end.

End PyStr.

(** ** The two name-cleaning helpers (matrix.py, lines 35-36 and 76-77) *)

Definition clean_ssl (ssl : string) : string :=
  PyStr.lower (PyStr.replace "_VERSION" "" ssl).

Definition clean_compression (compression : string) : string :=
  PyStr.lower (PyStr.replace "USE_" "" compression).

(** ** [json.dumps] on the values the script builds *)

(** The objects of the matrix: strings, lists and dicts.  A dict keeps
    its items in insertion order, as Python's does. *)
Inductive pyval : Type :=
  | PStr (s : string)
  | PList (l : list pyval)
  | PDict (d : list (string * pyval)).

Module Json.

Definition dq : string := String "034"%char "".
Definition nl : string := String "010"%char "".

Definition hex_digit (n : nat) : ascii :=
  nth n ["0"; "1"; "2"; "3"; "4"; "5"; "6"; "7"; "8"; "9";
         "a"; "b"; "c"; "d"; "e"; "f"]%char "0"%char.

(** One character of a string literal, with [ensure_ascii] left at its
    default: the short escapes, then [\u00xx] for whatever is outside
    the printable ASCII range. *)
Definition escape_char (c : ascii) : string :=
  let n := nat_of_ascii c in
  if (n =? 34)%nat then "\" ++ dq
  else if (n =? 92)%nat then "\\"
  else if (n =? 10)%nat then "\n"
  else if (n =? 13)%nat then "\r"
  else if (n =? 9)%nat then "\t"
  else if (n =? 8)%nat then "\b"
  else if (n =? 12)%nat then "\f"
  else if ((32 <=? n) && (n <=? 126))%nat then String c ""
  else "\u00" ++ String (hex_digit (n / 16)) (String (hex_digit (n mod 16)) "").

Fixpoint escape (s : string) : string :=
  match s with
  | EmptyString => ""
  | String c s' => escape_char c ++ escape s'
  end.

Definition encode_str (s : string) : string := dq ++ escape s ++ dq.

(** [sorted(items)]: a stable insertion sort on the keys. *)
Fixpoint insert_item (kv : string * string) (l : list (string * string))
  : list (string * string) :=
  match l with
  | [] => [kv]
  | x :: rest =>
      if String.leb (fst kv) (fst x) then kv :: l
      else x :: insert_item kv rest
  end.

Definition sorted_items (l : list (string * string)) : list (string * string) :=
  fold_right insert_item [] l.

Section Encoder.

(** The two keyword arguments the script passes. *)
Variable indent : option nat.
Variable sort_keys : bool.

Definition item_separator : string :=
  match indent with Some _ => "," | None => ", " end.

Definition key_separator : string := ": ".

Definition newline_indent (level : nat) : string :=
  match indent with
  | Some n => nl ++ PyStr.repeat_str (PyStr.repeat_str " " n) level
  | None => ""
  end.

Definition encode_item (kv : string * string) : string :=
  encode_str (fst kv) ++ key_separator ++ snd kv.

(** The values of a dict are encoded first and the encoded items are
    sorted afterwards; the keys of a dict are distinct, so this is the
    order [sorted(dct.items())] gives. *)
Fixpoint iterencode (level : nat) (v : pyval) : string :=
  match v with
  | PStr s => encode_str s
  | PList [] => "[]"
  | PList l =>
      "[" ++ newline_indent (S level)
      ++ PyStr.join (item_separator ++ newline_indent (S level))
           (map (iterencode (S level)) l)
      ++ newline_indent level ++ "]"
  | PDict [] => "{}"
  | PDict d =>
      let items :=
        map (fun kv => match kv with
                       | (k, x) => (k, iterencode (S level) x)
                       end) d in
      let items := if sort_keys then sorted_items items else items in
      "{" ++ newline_indent (S level)
      ++ PyStr.join (item_separator ++ newline_indent (S level))
           (map encode_item items)
      ++ newline_indent level ++ "}"
  end.

End Encoder.

Definition dumps (indent : option nat) (sort_keys : bool) (v : pyval) : string :=
  iterencode indent sort_keys 0 v.

End Json.

(** ** The values [json.loads] can return *)

Inductive json : Type :=
  | JNull
  | JBool (b : bool)
  | JNum (literal : string)
  | JStr (s : string)
  | JArr (l : list json)
  | JObj (members : list (string * json)).

(** ** Exceptions and results *)

Inductive exn : Type :=
  | SystemExit (code : nat)
  | URLError            (* urlopen: no connection, or a status outside 2xx *)
  | ValueError          (* json.JSONDecodeError *)
  | UnicodeDecodeError
  | TypeError
  | KeyError
  | IndexError
  | UnboundLocalError
  | OSError.

Inductive result (A : Type) : Type :=
  | Ok (a : A)
  | Raise (e : exn).
Arguments Ok {A} a.
Arguments Raise {A} e.

Definition rbind {A B} (r : result A) (k : A -> result B) : result B :=
  match r with
  | Ok a => k a
  | Raise e => Raise e
  end.

Declare Scope res_scope.
Delimit Scope res_scope with res.
Notation "x <~ c ;; k" := (rbind c (fun x => k))
  (at level 61, c at next level, right associativity) : res_scope.

(** ** The outside world of one run *)

(** What [urllib.request.urlopen] on the OpenSSL tags URL gives: it
    raises (no connection, or a status outside 2xx), or it returns a
    response; [body] is then the outcome of
    [json.loads(openssl_tags.read().decode("utf-8"))], which raises when
    the body cannot be read, is not UTF-8 or is not JSON. *)
Inductive tags_reply : Type :=
  | TagsUrlopenRaises
  | TagsResponse (body : result json).

(** The same for the LibreSSL directory listing: [readlines()] raises or
    gives the lines, and a line is [None] when [line.decode("utf-8")]
    raises on it. *)
Inductive listing_reply : Type :=
  | ListingUrlopenRaises
  | ListingResponse (lines : result (list (option string))).

Record world : Type := mkWorld {
  GITHUB_TOKEN : option string;       (* environ.get("GITHUB_TOKEN") *)
  GITHUB_OUTPUT : option string;      (* environ.get("GITHUB_OUTPUT") *)
  open_succeeds : bool;               (* open(GITHUB_OUTPUT, "a") *)
  openssl_tags : nat -> tags_reply;   (* reply to the n-th request *)
  libressl_listing : nat -> listing_reply;
  traceback : exn -> string           (* the interpreter's report of an
                                         uncaught exception: it depends on
                                         the installation *)
}.

Inductive request : Type :=
  | Get (url : string) (headers : list (string * string)).

Definition url_of (r : request) : string :=
  match r with Get url _ => url end.

Definition openssl_url : string :=
  "https://api.github.com/repos/openssl/openssl/tags".
Definition libressl_url : string :=
  "https://cdn.openbsd.org/pub/OpenBSD/LibreSSL/".

(** ** The state of the process *)

Record state : Type := mkState {
  stdout : string;
  stderr : string;
  requests : list request;                   (* HTTP requests sent so far *)
  openssl_cache : list (string * string);    (* lru_cache, newest first *)
  libressl_cache : list (string * string);
  matrix : list pyval;
  output_file : list (string * string)       (* (path, text appended) *)
}.

Definition initial : state := mkState "" "" [] [] [] [] [].

Definition set_stdout (x : string) (s : state) : state :=
  mkState x (stderr s) (requests s) (openssl_cache s) (libressl_cache s)
          (matrix s) (output_file s).
Definition set_stderr (x : string) (s : state) : state :=
  mkState (stdout s) x (requests s) (openssl_cache s) (libressl_cache s)
          (matrix s) (output_file s).
Definition set_requests (x : list request) (s : state) : state :=
  mkState (stdout s) (stderr s) x (openssl_cache s) (libressl_cache s)
          (matrix s) (output_file s).
Definition set_openssl_cache (x : list (string * string)) (s : state) : state :=
  mkState (stdout s) (stderr s) (requests s) x (libressl_cache s)
          (matrix s) (output_file s).
Definition set_libressl_cache (x : list (string * string)) (s : state) : state :=
  mkState (stdout s) (stderr s) (requests s) (openssl_cache s) x
          (matrix s) (output_file s).
Definition set_matrix (x : list pyval) (s : state) : state :=
  mkState (stdout s) (stderr s) (requests s) (openssl_cache s)
          (libressl_cache s) x (output_file s).
Definition set_output_file (x : list (string * string)) (s : state) : state :=
  mkState (stdout s) (stderr s) (requests s) (openssl_cache s)
          (libressl_cache s) (matrix s) x.

(** ** A state-and-exception monad for the script's statements *)

Definition M (A : Type) : Type := state -> result A * state.

Definition ret {A} (a : A) : M A := fun s => (Ok a, s).

Definition raise {A} (e : exn) : M A := fun s => (Raise e, s).

Definition bind {A B} (c : M A) (k : A -> M B) : M B :=
  fun s =>
    match c s with
    | (Ok a, s') => k a s'
    | (Raise e, s') => (Raise e, s')
    end.

Definition lift {A} (r : result A) : M A := fun s => (r, s).

Declare Scope py_scope.
Delimit Scope py_scope with py.
Notation "x <- c ;; k" := (bind c (fun x => k))
  (at level 61, c at next level, right associativity) : py_scope.
Notation "c ;; k" := (bind c (fun _ => k))
  (at level 61, right associativity) : py_scope.
Open Scope py_scope.

(** [for x in l: body] *)
Fixpoint for_each {A} (l : list A) (body : A -> M unit) : M unit :=
  match l with
  | [] => ret tt
  | x :: rest => body x ;; for_each rest body
  end.

(** [try: x = c / except: return v] followed by [k x]. *)
Definition try_or_return {A B} (c : M A) (v : B) (k : A -> M B) : M B :=
  fun s =>
    match c s with
    | (Ok a, s') => k a s'
    | (Raise _, s') => (Ok v, s')
    end.

(** [print(text)] and [print(text, file=sys.stderr)] *)
Definition print (text : string) : M unit :=
  fun s => (Ok tt, set_stdout (stdout s ++ text ++ Json.nl) s).
Definition print_stderr (text : string) : M unit :=
  fun s => (Ok tt, set_stderr (stderr s ++ text ++ Json.nl) s).

(** [matrix.append(e)] *)
Definition matrix_append (e : pyval) : M unit :=
  fun s => (Ok tt, set_matrix (matrix s ++ [e]) s).

(** ** [functools.lru_cache(maxsize)] around a one-argument function *)

Fixpoint cache_get (key : string) (c : list (string * string)) : option string :=
  match c with
  | [] => None
  | (k, v) :: rest => if String.eqb k key then Some v else cache_get key rest
  end.

Fixpoint cache_remove (key : string) (c : list (string * string))
  : list (string * string) :=
  match c with
  | [] => []
  | (k, v) :: rest =>
      if String.eqb k key then rest else (k, v) :: cache_remove key rest
  end.

(** A hit moves the entry to the front; a miss runs the function and,
    when it returns, stores the result, dropping the oldest entries
    beyond [maxsize]; an exception stores nothing. *)
Definition lru_cache (maxsize : nat)
    (get : state -> list (string * string))
    (set : list (string * string) -> state -> state)
    (f : string -> M string) (arg : string) : M string :=
  fun s =>
    match cache_get arg (get s) with
    | Some v => (Ok v, set ((arg, v) :: cache_remove arg (get s)) s)
    | None =>
        match f arg s with
        | (Ok v, s') => (Ok v, set (firstn maxsize ((arg, v) :: get s')) s')
        | (Raise e, s') => (Raise e, s')
        end
    end.

(** ** [urllib.request.urlopen] *)

Definition count_url (url : string) (l : list request) : nat :=
  length (filter (fun r => String.eqb (url_of r) url) l).

Definition urlopen_tags (w : world) (req : request) : M (result json) :=
  fun s =>
    let s' := set_requests (requests s ++ [req]) s in
    match openssl_tags w (count_url openssl_url (requests s)) with
    | TagsUrlopenRaises => (Raise URLError, s')
    | TagsResponse body => (Ok body, s')
    end.

Definition urlopen_listing (w : world) (req : request)
  : M (result (list (option string))) :=
  fun s =>
    let s' := set_requests (requests s ++ [req]) s in
    match libressl_listing w (count_url libressl_url (requests s)) with
    | ListingUrlopenRaises => (Raise URLError, s')
    | ListingResponse lines => (Ok lines, s')
    end.

(** ** [determine_latest_openssl] (matrix.py, lines 39-58) *)

(** The value of a key of a decoded JSON object: the last member wins. *)
Fixpoint members_get (key : string) (members : list (string * json))
  : option json :=
  match members with
  | [] => None
  | (k, v) :: rest =>
      match members_get key rest with
      | Some v' => Some v'
      | None => if String.eqb k key then Some v else None
      end
  end.

(** [for tag in tags]: a list gives its elements, a dict its keys, a
    string its characters; nothing else can be iterated. *)
Fixpoint chars (s : string) : list json :=
  match s with
  | EmptyString => []
  | String c s' => JStr (String c "") :: chars s'
  end.

Definition iterate (tags : json) : result (list json) :=
  match tags with
  | JArr l => Ok l
  | JObj members => Ok (map (fun kv => JStr (fst kv)) members)
  | JStr s => Ok (chars s)
  | JNull | JBool _ | JNum _ => Raise TypeError
  end.

(** [tag["name"]] *)
Definition subscript_name (tag : json) : result json :=
  match tag with
  | JObj members =>
      match members_get "name" members with
      | Some v => Ok v
      | None => Raise KeyError
      end
  | _ => Raise TypeError
  end.

Definition is_str (s : string) (x : json) : bool :=
  match x with
  | JStr t => String.eqb s t
  | _ => false
  end.

(** ["openssl-" in name] *)
Definition openssl_in (name : json) : result bool :=
  match name with
  | JStr s => Ok (PyStr.contains "openssl-" s)
  | JArr l => Ok (existsb (is_str "openssl-") l)
  | JObj members => Ok (existsb (fun kv => String.eqb "openssl-" (fst kv)) members)
  | JNull | JBool _ | JNum _ => Raise TypeError
  end.

(** [name > latest_tag], where [latest_tag] is a string; when it holds,
    [name] is a string too and becomes the new [latest_tag]. *)
Definition newer (name : json) (latest_tag : string) : result string :=
  match name with
  | JStr s => Ok (if PyStr.gt s latest_tag then s else latest_tag)
  | _ => Raise TypeError
  end.

Open Scope res_scope.

Fixpoint scan_tags (tags : list json) (latest_tag : string) : result string :=
  match tags with
  | [] => Ok latest_tag
  | tag :: rest =>
      name <~ subscript_name tag ;;
      found <~ openssl_in name ;;
      if found
      then (latest <~ newer name latest_tag ;; scan_tags rest latest)
      else scan_tags rest latest_tag
  end.

(** Lines 51-58, on the outcome of reading and decoding the body. *)
Definition latest_openssl_of (body : result json) : result string :=
  tags <~ body ;;
  l <~ iterate tags ;;
  latest_tag <~ scan_tags l "" ;;
  Ok ("OPENSSL_VERSION=" ++ PyStr.slice_from 8 latest_tag).

Close Scope res_scope.

Definition openssl_request (w : world) : request :=
  Get openssl_url
      match GITHUB_TOKEN w with
      | Some token => [("Authorization", "token " ++ token)]
      | None => []
      end.

Definition determine_latest_openssl_body (w : world) (ssl : string) : M string :=
  try_or_return (urlopen_tags w (openssl_request w))
    "OPENSSL_VERSION=failed_to_detect"
    (fun body => lift (latest_openssl_of body)).

Definition determine_latest_openssl (w : world) : string -> M string :=
  lru_cache 5 openssl_cache set_openssl_cache (determine_latest_openssl_body w).

(** ** [determine_latest_libressl] (matrix.py, lines 61-73) *)

Module Re.

(** A pattern without repetition: alternatives of atoms, an atom being a
    character or the dot, which matches everything but a newline. *)
Definition atom := option ascii.

Fixpoint literal (s : string) : list atom :=
  match s with
  | EmptyString => []
  | String c s' => Some c :: literal s'
  end.

Fixpoint match_atoms (p : list atom) (s : string) : bool :=
  match p, s with
  | [], _ => true
  | _ :: _, EmptyString => false
  | None :: p', String c s' => negb (Ascii.eqb c "010") && match_atoms p' s'
  | Some a :: p', String c s' => Ascii.eqb a c && match_atoms p' s'
  end.

(** The length of the match at the start of [s]: the first alternative
    that matches. *)
Fixpoint match_here (alts : list (list atom)) (s : string) : option nat :=
  match alts with
  | [] => None
  | p :: rest =>
      if match_atoms p s then Some (length p) else match_here rest s
  end.

(** [re.split(pattern, s)] for such a pattern (no match is empty): the
    head of the result is the piece that starts at the current
    position. *)
Fixpoint split_from (alts : list (list atom)) (skip : nat) (s : string)
  : list string :=
  match s with
  | EmptyString => [""]
  | String c s' =>
      match skip with
      | S k => split_from alts k s'
      | O =>
          match match_here alts s with
          | Some (S n) => "" :: split_from alts n s'
          | _ =>
              match split_from alts 0 s' with
              | piece :: pieces => String c piece :: pieces
              | [] => [String c ""]
              end
          end
      end
  end.

Definition split (alts : list (list atom)) (s : string) : list string :=
  split_from alts 0 s.

End Re.

(** The pattern ["libressl-|.tar.gz.asc"]: its dots are wildcards. *)
Definition libressl_pattern : list (list Re.atom) :=
  [ Re.literal "libressl-";
    ([None] ++ Re.literal "tar" ++ [None] ++ Re.literal "gz"
     ++ [None] ++ Re.literal "asc")%list ].

Open Scope res_scope.

(** The loop of lines 69-72; [l] is the local variable of that name,
    unbound until a line matches. *)
Fixpoint scan_lines (lines : list (option string)) (l : option string)
  : result (option string) :=
  match lines with
  | [] => Ok l
  | None :: _ => Raise UnicodeDecodeError
  | Some decoded_line :: rest =>
      if PyStr.contains "libressl-" decoded_line
         && PyStr.contains ".tar.gz.asc" decoded_line
      then
        match nth_error (Re.split libressl_pattern decoded_line) 1 with
        | Some piece => scan_lines rest (Some piece)
        | None => Raise IndexError
        end
      else scan_lines rest l
  end.

Definition latest_libressl_of (body : result (list (option string)))
  : result string :=
  lines <~ body ;;
  l <~ scan_lines lines None ;;
  match l with
  | Some v => Ok ("LIBRESSL_VERSION=" ++ v)
  | None => Raise UnboundLocalError
  end.

Close Scope res_scope.

Definition determine_latest_libressl_body (w : world) (ssl : string) : M string :=
  try_or_return (urlopen_listing w (Get libressl_url []))
    "LIBRESSL_VERSION=failed_to_detect"
    (fun body => lift (latest_libressl_of body)).

Definition determine_latest_libressl (w : world) : string -> M string :=
  lru_cache 5 libressl_cache set_libressl_cache (determine_latest_libressl_body w).

(** ** The matrix (matrix.py, lines 80-236) *)

Definition get_asan_flags (cc : string) : list string :=
  [ "USE_OBSOLETE_LINKER=1";
    "DEBUG_CFLAGS=" ++ Json.dq ++ "-g -fsanitize=address" ++ Json.dq;
    "LDFLAGS=" ++ Json.dq ++ "-fsanitize=address" ++ Json.dq;
    "CPU_CFLAGS.generic=" ++ Json.dq ++ "-O1" ++ Json.dq ].

Definition all_features : list string :=
  [ "USE_ZLIB=1";
    "USE_OT=1";
    "OT_INC=${HOME}/opt-ot/include";
    "OT_LIB=${HOME}/opt-ot/lib";
    "OT_RUNPATH=1";
    "USE_PCRE=1";
    "USE_PCRE_JIT=1";
    "USE_LUA=1";
    "USE_OPENSSL=1";
    "USE_SYSTEMD=1";
    "USE_WURFL=1";
    "WURFL_INC=addons/wurfl/dummy";
    "WURFL_LIB=addons/wurfl/dummy";
    "USE_DEVICEATLAS=1";
    "DEVICEATLAS_SRC=addons/deviceatlas/dummy";
    "USE_PROMEX=1";
    "USE_51DEGREES=1";
    "51DEGREES_SRC=addons/51degrees/dummy/pattern" ].

(** A matrix entry, with the keys in the order of the dict displays of
    the script; only the TLS entries have the key [ssl]. *)
Definition entry (name os TARGET CC : string) (ssl : option string)
    (FLAGS : list string) : pyval :=
  PDict ([("name", PStr name); ("os", PStr os);
          ("TARGET", PStr TARGET); ("CC", PStr CC)]
         ++ match ssl with
            | Some v => [("ssl", PStr v)]
            | None => []
            end
         ++ [("FLAGS", PList (map PStr FLAGS))])%list.

(** ["{}, {}, <descriptor>".format(os, CC)] *)
Definition entry_name (os CC descriptor : string) : string :=
  os ++ ", " ++ CC ++ ", " ++ descriptor.

(** The branch test of lines 93, 190 and 221. *)
Definition stable (ref_name : string) : bool :=
  PyStr.contains "haproxy-" ref_name.

Definition linux_os (ref_name : string) : string :=
  if stable ref_name then "ubuntu-22.04" else "ubuntu-latest".

Definition macos_os (ref_name : string) : string :=
  if stable ref_name then "macos-12" else "macos-latest".

Definition pinned_ssl_versions : list string :=
  [ "stock"; "OPENSSL_VERSION=1.0.2u"; "OPENSSL_VERSION=1.1.1s"; "QUICTLS=yes" ].

Definition ssl_versions (ref_name : string) : list string :=
  if negb (stable ref_name)
  then (pinned_ssl_versions
        ++ ["OPENSSL_VERSION=latest"; "LIBRESSL_VERSION=latest"])%list
  else pinned_ssl_versions.

(** The flags of a TLS entry (lines 197-202), a function of the marker
    as it stands in [ssl_versions]. *)
Definition ssl_flags (ssl : string) : list string :=
  let flags := ["USE_OPENSSL=1"] in
  let flags :=
    if String.eqb ssl "BORINGSSL=yes" || String.eqb ssl "QUICTLS=yes"
       || PyStr.contains "LIBRESSL" ssl
    then (flags ++ ["USE_QUIC=1"])%list else flags in
  if negb (String.eqb ssl "stock")
  then (flags ++ ["SSL_LIB=${HOME}/opt/lib"; "SSL_INC=${HOME}/opt/include"])%list
  else flags.

(** Lines 203-206: the two conditional resolutions of [ssl]. *)
Definition resolve (w : world) (ssl : string) : M string :=
  ssl <- (if PyStr.contains "LIBRESSL" ssl && PyStr.contains "latest" ssl
          then determine_latest_libressl w ssl else ret ssl) ;;
  if PyStr.contains "OPENSSL" ssl && PyStr.contains "latest" ssl
  then determine_latest_openssl w ssl else ret ssl.

(** One turn of the loop of lines 196-217. *)
Definition ssl_step (w : world) (os TARGET CC : string) (ssl : string) : M unit :=
  let flags := ssl_flags ssl in
  ssl <- resolve w ssl ;;
  matrix_append
    (entry (entry_name os CC ("ssl=" ++ clean_ssl ssl)) os TARGET CC
           (Some ssl) flags).

(** One turn of the loop of lines 99-217. *)
Definition linux_leg (w : world) (ref_name os TARGET CC : string) : M unit :=
  matrix_append (entry (entry_name os CC "no features") os TARGET CC None []) ;;
  matrix_append
    (entry (entry_name os CC "all features") os TARGET CC None all_features) ;;
  matrix_append
    (entry (entry_name os CC "ASAN, all features") os TARGET CC None
           (get_asan_flags CC ++ all_features)) ;;
  for_each ["USE_ZLIB=1"] (fun compression =>
    matrix_append
      (entry (entry_name os CC ("gz=" ++ clean_compression compression))
             os TARGET CC None [compression])) ;;
  for_each (ssl_versions ref_name) (ssl_step w os TARGET CC).

Definition macos_leg (os TARGET CC : string) : M unit :=
  matrix_append (entry (entry_name os CC "no features") os TARGET CC None []).

(** ** The script, top to bottom *)

(** Lines 18-22. *)
Definition parse_argv (argv : list string) : M string :=
  if (length argv =? 2)%nat
  then lift (match nth_error argv 1 with
             | Some a => Ok a
             | None => Raise IndexError
             end)
  else
    prog <- lift (match nth_error argv 0 with
                  | Some a => Ok a
                  | None => Raise IndexError
                  end) ;;
    print_stderr ("Usage: " ++ prog ++ " <ref_name>") ;;
    raise (SystemExit 1).

(** Lines 242-244. *)
Definition write_output (w : world) : M unit :=
  match GITHUB_OUTPUT w with
  | None => ret tt
  | Some path =>
      fun s =>
        if open_succeeds w
        then (Ok tt,
              set_output_file
                (output_file s
                 ++ [(path,
                      "matrix="
                      ++ Json.dumps None false
                           (PDict [("include", PList (matrix s))])
                      ++ Json.nl)]) s)
        else (Raise OSError, s)
  end.

Definition print_matrix : M unit :=
  fun s => print (Json.dumps (Some 4) true (PList (matrix s))) s.

(** Lines 219-244: the macOS entry, the JSON on standard output and the
    line for the CI orchestrator. *)
Definition finish (w : world) (ref_name : string) : M unit :=
  for_each ["clang"] (macos_leg (macos_os ref_name) "osx") ;;
  print_matrix ;;
  write_output w.

(** The banner of line 32. *)
Definition banner (ref_name : string) : string :=
  "Generating matrix for branch '" ++ ref_name ++ "'.".

Definition main (argv : list string) (w : world) : M unit :=
  ref_name <- parse_argv argv ;;
  print (banner ref_name) ;;
  for_each ["gcc"; "clang"]
    (linux_leg w ref_name (linux_os ref_name) "linux-glibc") ;;
  finish w ref_name.

(** The end of the process: nothing more after the last statement or
    after [sys.exit(1)]; after any other exception the interpreter
    prints its traceback on standard error. *)
Definition at_exit (w : world) (rs : result unit * state)
  : result unit * state :=
  match rs with
  | (Ok u, s) => (Ok u, s)
  | (Raise (SystemExit code), s) => (Raise (SystemExit code), s)
  | (Raise e, s) => (Raise e, set_stderr (stderr s ++ traceback w e) s)
  end.

(** The run of the script from a fresh process, and its exit status. *)
Definition run (argv : list string) (w : world) : result unit * state :=
  at_exit w (main argv w initial).

Definition exit_code (r : result unit) : nat :=
  match r with
  | Ok _ => 0
  | Raise (SystemExit n) => n
  | Raise _ => 1
  end.

(** ** The data model of the specification *)

(** A [MatrixEntry] of the specification; [to_dict] is the dict the
    script builds for it. *)
Record MatrixEntry : Type := mkEntry {
  e_name : string;
  e_os : string;
  e_TARGET : string;
  e_CC : string;
  e_ssl : option string;
  e_FLAGS : list string
}.

Definition to_dict (e : MatrixEntry) : pyval :=
  entry (e_name e) (e_os e) (e_TARGET e) (e_CC e) (e_ssl e) (e_FLAGS e).

(** The descriptor part of a display name ["<os>, <compiler>, <descriptor>"],
    classified by the five shapes the specification lists. *)
Inductive kind : Type :=
  | NoFeatures
  | AllFeatures
  | AsanAllFeatures
  | Gz
  | Ssl
  | Other.

Definition descriptor_kind (os CC name : string) : kind :=
  let prefix := os ++ ", " ++ CC ++ ", " in
  let d := PyStr.slice_from (String.length prefix) name in
  if negb (PyStr.startswith prefix name) then Other
  else if String.eqb d "no features" then NoFeatures
  else if String.eqb d "all features" then AllFeatures
  else if String.eqb d "ASAN, all features" then AsanAllFeatures
  else if PyStr.startswith "gz=" d then Gz
  else if PyStr.startswith "ssl=" d then Ssl
  else Other.

(** Reading an emitted dict: [d.get(key)], and the string under a key. *)
Fixpoint items_get (key : string) (items : list (string * pyval))
  : option pyval :=
  match items with
  | [] => None
  | (k, v) :: rest => if String.eqb k key then Some v else items_get key rest
  end.

Definition item (key : string) (d : pyval) : option pyval :=
  match d with
  | PDict items => items_get key items
  | _ => None
  end.

Definition str_item (key : string) (d : pyval) : string :=
  match item key d with
  | Some (PStr s) => s
  | _ => ""
  end.

Definition kind_of (d : pyval) : kind :=
  descriptor_kind (str_item "os" d) (str_item "CC" d) (str_item "name" d).

(** The entries of the emitted matrix that belong to one compiler of the
    Linux target, in the order emitted. *)
Definition linux_entries (CC : string) (m : list pyval) : list pyval :=
  filter (fun d => String.eqb (str_item "TARGET" d) "linux-glibc"
                   && String.eqb (str_item "CC" d) CC) m.

(** How many entries of a list have a given kind. *)
Definition kind_eqb (a b : kind) : bool :=
  match a, b with
  | NoFeatures, NoFeatures | AllFeatures, AllFeatures
  | AsanAllFeatures, AsanAllFeatures | Gz, Gz | Ssl, Ssl | Other, Other => true
  | _, _ => false
  end.

Definition count_kind (k : kind) (l : list pyval) : nat :=
  length (filter (fun d => kind_eqb (kind_of d) k) l).

(** The entries one turn of the Linux loop adds: the four fixed ones,
    then one per TLS marker; [resolved] is the value of the local
    variable [ssl] when the entry is built. *)
Definition fixed_entries (os TARGET CC : string) : list MatrixEntry :=
  [ mkEntry (entry_name os CC "no features") os TARGET CC None [];
    mkEntry (entry_name os CC "all features") os TARGET CC None all_features;
    mkEntry (entry_name os CC "ASAN, all features") os TARGET CC None
            (get_asan_flags CC ++ all_features);
    mkEntry (entry_name os CC ("gz=" ++ clean_compression "USE_ZLIB=1"))
            os TARGET CC None ["USE_ZLIB=1"] ].

Definition ssl_entry (os TARGET CC marker resolved : string) : MatrixEntry :=
  mkEntry (entry_name os CC ("ssl=" ++ clean_ssl resolved)) os TARGET CC
          (Some resolved) (ssl_flags marker).

Definition leg_entries (os TARGET CC : string) (tls : list (string * string))
  : list MatrixEntry :=
  (fixed_entries os TARGET CC
   ++ map (fun mr => ssl_entry os TARGET CC (fst mr) (snd mr)) tls)%list.

Definition unresolved (markers : list string) : list (string * string) :=
  map (fun m => (m, m)) markers.

Definition macos_entry (ref_name : string) : MatrixEntry :=
  mkEntry (entry_name (macos_os ref_name) "clang" "no features")
          (macos_os ref_name) "osx" "clang" None [].

(** The whole matrix, given what the TLS markers resolve to. *)
Definition matrix_entries (ref_name : string) (tls : list (string * string))
  : list MatrixEntry :=
  (leg_entries (linux_os ref_name) "linux-glibc" "gcc" tls
   ++ leg_entries (linux_os ref_name) "linux-glibc" "clang" tls
   ++ [macos_entry ref_name])%list.

(** ** Descriptions of a run, for the proofs *)

(** What lines 47-58 and 63-73 return for a given reply of the server. *)
Definition openssl_outcome (r : tags_reply) : result string :=
  match r with
  | TagsUrlopenRaises => Ok "OPENSSL_VERSION=failed_to_detect"
  | TagsResponse body => latest_openssl_of body
  end.

Definition libressl_outcome (r : listing_reply) : result string :=
  match r with
  | ListingUrlopenRaises => Ok "LIBRESSL_VERSION=failed_to_detect"
  | ListingResponse body => latest_libressl_of body
  end.

(** The values the two [latest] markers take in a development run: the
    resolved LibreSSL string goes through the OpenSSL test of line 205
    once more. *)
Definition retested (vl : string) : bool :=
  PyStr.contains "OPENSSL" vl && PyStr.contains "latest" vl.

Definition dev_resolution (w : world) : result (string * string) :=
  (vo <~ openssl_outcome (openssl_tags w 0) ;;
   vl <~ libressl_outcome (libressl_listing w 0) ;;
   if retested vl
   then (v2 <~ openssl_outcome (openssl_tags w 1) ;; Ok (vo, v2))
   else Ok (vo, vl))%res.

Definition dev_tls (vo vl : string) : list (string * string) :=
  (unresolved pinned_ssl_versions
   ++ [("OPENSSL_VERSION=latest", vo); ("LIBRESSL_VERSION=latest", vl)])%list.

(** The part of the state a resolver leaves alone. *)
Definition same_output (s s' : state) : Prop :=
  matrix s' = matrix s /\ stdout s' = stdout s /\ stderr s' = stderr s
  /\ output_file s' = output_file s.

(** The HTTP requests of a development run, in the order sent. *)
Definition dev_requests (w : world) : list request :=
  openssl_request w
  :: match openssl_outcome (openssl_tags w 0) with
     | Raise _ => []
     | Ok _ =>
         Get libressl_url []
         :: match libressl_outcome (libressl_listing w 0) with
            | Raise _ => []
            | Ok vl => if retested vl then [openssl_request w] else []
            end
     end.

(** What the two Linux legs of a development run leave behind, started
    in state [s] with nothing cached. *)
Definition dev_legs_post (w : world) (s : state) (rs : result unit * state)
  : Prop :=
  stdout (snd rs) = stdout s /\ stderr (snd rs) = stderr s
  /\ output_file (snd rs) = output_file s
  /\ requests (snd rs) = dev_requests w
  /\ match fst rs with
     | Ok _ =>
         exists vo vl,
           dev_resolution w = Ok (vo, vl)
           /\ matrix (snd rs)
              = (matrix s
                 ++ map to_dict
                      (leg_entries "ubuntu-latest" "linux-glibc" "gcc"
                         (dev_tls vo vl)
                       ++ leg_entries "ubuntu-latest" "linux-glibc" "clang"
                            (dev_tls vo vl)))%list
     | Raise e => dev_resolution w = Raise e
     end.

(** Whether lines 242-244 go through. *)
Definition output_ok (w : world) : bool :=
  match GITHUB_OUTPUT w with
  | None => true
  | Some _ => open_succeeds w
  end.

(** What the TLS markers of a run resolve to, if the resolvers return. *)
Definition resolution (w : world) (ref_name : string)
  : result (list (string * string)) :=
  if stable ref_name then Ok (unresolved pinned_ssl_versions)
  else (p <~ dev_resolution w ;; Ok (dev_tls (fst p) (snd p)))%res.

Definition run_requests (w : world) (ref_name : string) : list request :=
  if stable ref_name then [] else dev_requests w.

(** The two texts the script writes for a matrix. *)
Definition stdout_text (ref_name : string) (entries : list MatrixEntry) : string :=
  banner ref_name ++ Json.nl
  ++ Json.dumps (Some 4) true (PList (map to_dict entries)) ++ Json.nl.

Definition output_line (entries : list MatrixEntry) : string :=
  "matrix="
  ++ Json.dumps None false (PDict [("include", PList (map to_dict entries))])
  ++ Json.nl.

Definition written (w : world) (entries : list MatrixEntry)
  : list (string * string) :=
  match GITHUB_OUTPUT w with
  | Some path => if open_succeeds w then [(path, output_line entries)] else []
  | None => []
  end.

(** A complete description of the script's statements on one
    argument, before the process ends. *)
Definition main_post (w : world) (ref : string) (rs : result unit * state)
  : Prop :=
  requests (snd rs) = run_requests w ref
  /\ stderr (snd rs) = ""
  /\ match resolution w ref with
     | Raise e =>
         fst rs = Raise e
         /\ stdout (snd rs) = banner ref ++ Json.nl
         /\ output_file (snd rs) = []
     | Ok tls =>
         fst rs = (if output_ok w then Ok tt else Raise OSError)
         /\ matrix (snd rs) = map to_dict (matrix_entries ref tls)
         /\ stdout (snd rs) = stdout_text ref (matrix_entries ref tls)
         /\ output_file (snd rs) = written w (matrix_entries ref tls)
     end.

(** A complete description of a run with one argument. *)
Definition run_post (w : world) (ref : string) (rs : result unit * state)
  : Prop :=
  requests (snd rs) = run_requests w ref
  /\ stderr (snd rs)
     = match fst rs with
       | Ok _ | Raise (SystemExit _) => ""
       | Raise e => traceback w e
       end
  /\ match resolution w ref with
     | Raise e =>
         fst rs = Raise e
         /\ stdout (snd rs) = banner ref ++ Json.nl
         /\ output_file (snd rs) = []
     | Ok tls =>
         fst rs = (if output_ok w then Ok tt else Raise OSError)
         /\ matrix (snd rs) = map to_dict (matrix_entries ref tls)
         /\ stdout (snd rs) = stdout_text ref (matrix_entries ref tls)
         /\ output_file (snd rs) = written w (matrix_entries ref tls)
     end.

(** ** The layout of standard output, in the words of the specification *)

(** Standard output as the specification words it, to be compared with
    what [json.dumps] gives: a pretty-printed array of entry objects,
    each on its own lines, the keys in alphabetical (code point) order,
    every nesting level indented by four more spaces. *)
Module Pretty.

Definition indent (depth : nat) : string := PyStr.repeat_str "    " depth.

Definition quoted (s : string) : string := Json.encode_str s.

(** The lines of a block, each at [depth], separated by commas. *)
Definition lines (depth : nat) (l : list string) : string :=
  PyStr.join ("," ++ Json.nl) (map (append (indent depth)) l).

Definition member (key value : string) : string :=
  quoted key ++ ": " ++ value.

Definition flags_text (depth : nat) (flags : list string) : string :=
  match flags with
  | [] => "[]"
  | _ => "[" ++ Json.nl ++ lines (S depth) (map quoted flags)
         ++ Json.nl ++ indent depth ++ "]"
  end.

Definition entry_text (e : MatrixEntry) : string :=
  "{" ++ Json.nl
  ++ lines 2 ([ member "CC" (quoted (e_CC e));
                member "FLAGS" (flags_text 2 (e_FLAGS e));
                member "TARGET" (quoted (e_TARGET e));
                member "name" (quoted (e_name e));
                member "os" (quoted (e_os e)) ]
              ++ match e_ssl e with
                 | Some v => [member "ssl" (quoted v)]
                 | None => []
                 end)
  ++ Json.nl ++ indent 1 ++ "}".

Definition matrix_text (entries : list MatrixEntry) : string :=
  match entries with
  | [] => "[]"
  | _ => "[" ++ Json.nl ++ lines 1 (map entry_text entries) ++ Json.nl ++ "]"
  end.

End Pretty.

(** ** The layout of the line for the CI orchestrator *)

(** The compact form [json.dumps] gives without arguments: one line,
    the keys in the order of the dict displays. *)
Module Compact.

Definition list_text (l : list string) : string :=
  "[" ++ PyStr.join ", " l ++ "]".

Definition entry_text (e : MatrixEntry) : string :=
  "{"
  ++ PyStr.join ", "
       ([ Pretty.member "name" (Pretty.quoted (e_name e));
          Pretty.member "os" (Pretty.quoted (e_os e));
          Pretty.member "TARGET" (Pretty.quoted (e_TARGET e));
          Pretty.member "CC" (Pretty.quoted (e_CC e)) ]
        ++ match e_ssl e with
           | Some v => [Pretty.member "ssl" (Pretty.quoted v)]
           | None => []
           end
        ++ [Pretty.member "FLAGS"
              (list_text (map Pretty.quoted (e_FLAGS e)))])
  ++ "}".

Definition include_text (entries : list MatrixEntry) : string :=
  "{" ++ Pretty.member "include" (list_text (map entry_text entries)) ++ "}".

End Compact.

(** ** Character classes *)

Fixpoint all_chars (P : ascii -> bool) (s : string) : bool :=
  match s with
  | EmptyString => true
  | String c s' => P c && all_chars P s'
  end.

(** The printable ASCII characters, space to tilde. *)
Definition printable (c : ascii) : bool :=
  ((32 <=? nat_of_ascii c) && (nat_of_ascii c <=? 126))%nat.

Definition printable_or_newline (c : ascii) : bool :=
  printable c || Ascii.eqb c "010".

(** The capital letters A to Z. *)
Definition upper_ascii (c : ascii) : bool :=
  ((65 <=? nat_of_ascii c) && (nat_of_ascii c <=? 90))%nat.

(** Anything but a capital letter A to Z. *)
Definition not_upper (c : ascii) : bool := negb (upper_ascii c).

(** The headers of a request. *)
Definition headers_of (r : request) : list (string * string) :=
  match r with Get _ headers => headers end.

(** ** Tags as the GitHub API lists them *)

(** A tag object with a string under [name]. *)
Definition tag_named (tag : json) (name : string) : Prop :=
  exists members,
    tag = JObj members /\ members_get "name" members = Some (JStr name).

(** The test of line 55 on a tag name. *)
Definition is_openssl_tag (name : string) : bool :=
  PyStr.contains "openssl-" name.

(** The test of line 71 on a decoded line. *)
Definition is_signature_line (decoded_line : string) : bool :=
  PyStr.contains "libressl-" decoded_line
  && PyStr.contains ".tar.gz.asc" decoded_line.

(** The pattern of line 72 matches at no position of [p] in the text
    [p ++ rest]. *)
Fixpoint unmatched (p rest : string) : bool :=
  match p with
  | EmptyString => true
  | String c p' =>
      match Re.match_here libressl_pattern (p ++ rest) with
      | Some _ => false
      | None => unmatched p' rest
      end
  end.

(** Neither [l] nor [t]: a character no match of the pattern can start
    at or next to. *)
Definition plain_char (c : ascii) : bool :=
  negb (Ascii.eqb c "l") && negb (Ascii.eqb c "t").

(** ** Sample worlds *)

Definition sample_tags : json :=
  JArr [ JObj [("name", JStr "openssl-3.2.0"); ("node_id", JStr "x")];
         JObj [("name", JStr "openssl-3.1.4")];
         JObj [("name", JStr "OpenSSL_1_1_1w")] ].

Definition sample_listing : list (option string) :=
  [ Some "<html><body>";
    Some "<a href=libressl-3.8.1.tar.gz.asc>libressl-3.8.1.tar.gz.asc</a>";
    Some "<a href=libressl-3.8.2.tar.gz.asc>libressl-3.8.2.tar.gz.asc</a>";
    Some "</body></html>" ].

(** A traceback as CPython prints it, without the frames. *)
Definition exn_name (e : exn) : string :=
  match e with
  | SystemExit _ => "SystemExit"
  | URLError => "urllib.error.URLError"
  | ValueError => "json.decoder.JSONDecodeError"
  | UnicodeDecodeError => "UnicodeDecodeError"
  | TypeError => "TypeError"
  | KeyError => "KeyError"
  | IndexError => "IndexError"
  | UnboundLocalError => "UnboundLocalError"
  | OSError => "OSError"
  end.

Definition sample_traceback (e : exn) : string :=
  "Traceback (most recent call last):" ++ Json.nl ++ exn_name e ++ Json.nl.

(** A world without network: every request fails. *)
Definition offline : world :=
  mkWorld None None true (fun _ => TagsUrlopenRaises) (fun _ => ListingUrlopenRaises)
    sample_traceback.

(** Both servers answer. *)
Definition online : world :=
  mkWorld None None true
    (fun _ => TagsResponse (Ok sample_tags))
    (fun _ => ListingResponse (Ok sample_listing))
    sample_traceback.

(** The tags server answers 200 with a body that is not JSON. *)
Definition malformed_tags : world :=
  mkWorld None None true
    (fun _ => TagsResponse (Raise ValueError))
    (fun _ => ListingResponse (Ok sample_listing))
    sample_traceback.

(** The tags server answers 200 with JSON that is not a list of tags. *)
Definition unexpected_tags : world :=
  mkWorld None None true
    (fun _ => TagsResponse (Ok (JArr [JNum "1"])))
    (fun _ => ListingResponse (Ok sample_listing))
    sample_traceback.

(** The listing has no signature file. *)
Definition empty_listing : world :=
  mkWorld None None true
    (fun _ => TagsResponse (Ok sample_tags))
    (fun _ => ListingResponse (Ok [Some "<html><body></body></html>"]))
    sample_traceback.

(** The listing names a file whose version part spells both words the
    test of line 205 looks for. *)
Definition retesting : world :=
  mkWorld None None true
    (fun _ => TagsResponse (Ok sample_tags))
    (fun _ => ListingResponse (Ok [Some "libressl-OPENSSLlatest.tar.gz.asc"]))
    sample_traceback.

(** The tags server lists no tag with [openssl-] in its name. *)
Definition old_tags : list json :=
  [ JObj [("name", JStr "OpenSSL_1_1_1w")];
    JObj [("name", JStr "OpenSSL_1_0_2u"); ("node_id", JStr "y")] ].

Definition no_openssl_tags : world :=
  mkWorld None None true
    (fun _ => TagsResponse (Ok (JArr old_tags)))
    (fun _ => ListingResponse (Ok sample_listing))
    sample_traceback.

(** The GitHub variables are set and the output file can be opened. *)
Definition in_ci : world :=
  mkWorld (Some "s3cr3t") (Some "/tmp/github_output") true
    (fun _ => TagsResponse (Ok sample_tags))
    (fun _ => ListingResponse (Ok sample_listing))
    sample_traceback.

(** The output file cannot be opened. *)
Definition read_only : world :=
  mkWorld None (Some "/proc/github_output") false
    (fun _ => TagsResponse (Ok sample_tags))
    (fun _ => ListingResponse (Ok sample_listing))
    sample_traceback.

(** The tags server is down for the first request and back for the
    second. *)
Definition recovering : world :=
  mkWorld None None true
    (fun n => match n with
              | O => TagsUrlopenRaises
              | S _ => TagsResponse (Ok sample_tags)
              end)
    (fun _ => ListingResponse (Ok sample_listing))
    sample_traceback.

(** The tags server answers garbage first and tags afterwards. *)
Definition garbled_once : world :=
  mkWorld None None true
    (fun n => match n with
              | O => TagsResponse (Raise ValueError)
              | S _ => TagsResponse (Ok sample_tags)
              end)
    (fun _ => ListingResponse (Ok sample_listing))
    sample_traceback.

(** Tags whose order as strings is not their order as versions. *)
Definition two_digit_tags : list json :=
  [ JObj [("name", JStr "openssl-3.10.0")];
    JObj [("name", JStr "openssl-3.9.0")] ].

(** A process whose OpenSSL cache is full: five markers, the most
    recently used first. *)
Definition five_markers : list (string * string) :=
  [("k5", "v5"); ("k4", "v4"); ("k3", "v3"); ("k2", "v2"); ("k1", "v1")].

Definition full_cache : state := set_openssl_cache five_markers initial.

(** * Properties *)

Arguments bind {A B} c k s /.
Arguments ret {A} a s /.
Arguments raise {A} e s /.
Arguments lift {A} r s /.
Arguments matrix_append e s /.
Arguments print text s /.
Arguments print_stderr text s /.
Arguments print_matrix s /.

(** ** The helpers on concrete inputs *)

Example clean_ssl_ex : clean_ssl "OPENSSL_VERSION=1.1.1s" = "openssl=1.1.1s".
Proof. reflexivity. Qed.

Example clean_compression_ex : clean_compression "USE_ZLIB=1" = "zlib=1".
Proof. reflexivity. Qed.

Example dumps_compact :
  Json.dumps None false (PDict [("b", PList [PStr "x"; PStr "y"]); ("a", PList [])])
  = "{" ++ Json.dq ++ "b" ++ Json.dq ++ ": [" ++ Json.dq ++ "x" ++ Json.dq
    ++ ", " ++ Json.dq ++ "y" ++ Json.dq ++ "], "
    ++ Json.dq ++ "a" ++ Json.dq ++ ": []}".
Proof. reflexivity. Qed.

Example split_ex :
  Re.split libressl_pattern "<a href=libressl-3.8.2.tar.gz.asc>x</a>"
  = ["<a href="; "3.8.2"; ">x</a>"].
Proof. reflexivity. Qed.

Example replace_overlap : PyStr.replace "aa" "b" "aaa" = "ba".
Proof. reflexivity. Qed.

Example replace_empty : PyStr.replace "" "-" "abc" = "-a-b-c-".
Proof. reflexivity. Qed.

Example split_wildcard :
  Re.split libressl_pattern "x.tar.gz.asc libressl-3.0" = ["x"; " "; "3.0"].
Proof. reflexivity. Qed.

Example split_retested :
  Re.split libressl_pattern "libressl-OPENSSLlatest.tar.gz.asc"
  = [""; "OPENSSLlatest"; ""].
Proof. reflexivity. Qed.

Example escape_ex :
  Json.encode_str ("x" ++ Json.dq ++ "y" ++ String "127"%char (String "233"%char Json.nl))
  = Json.dq ++ "x\" ++ Json.dq ++ "y\u007f\u00e9\n" ++ Json.dq.
Proof. reflexivity. Qed.

Example latest_openssl_sample :
  latest_openssl_of (Ok sample_tags) = Ok "OPENSSL_VERSION=3.2.0".
Proof. reflexivity. Qed.

Example latest_libressl_sample :
  latest_libressl_of (Ok sample_listing) = Ok "LIBRESSL_VERSION=3.8.2".
Proof. reflexivity. Qed.

Example first_entry_stable :
  hd_error (matrix (snd (run ["matrix.py"; "haproxy-2.8"] offline)))
  = Some (PDict [("name", PStr "ubuntu-22.04, gcc, no features");
                 ("os", PStr "ubuntu-22.04"); ("TARGET", PStr "linux-glibc");
                 ("CC", PStr "gcc"); ("FLAGS", PList [])]).
Proof. vm_compute. reflexivity. Qed.

(** ** The resolvers *)

Lemma openssl_body_eq w k s :
  determine_latest_openssl_body w k s
  = (openssl_outcome (openssl_tags w (count_url openssl_url (requests s))),
     set_requests (requests s ++ [openssl_request w]) s).
Proof.
  unfold determine_latest_openssl_body, try_or_return, urlopen_tags.
  destruct (openssl_tags w _); reflexivity.
Qed.

Lemma libressl_body_eq w k s :
  determine_latest_libressl_body w k s
  = (libressl_outcome (libressl_listing w (count_url libressl_url (requests s))),
     set_requests (requests s ++ [Get libressl_url []]) s).
Proof.
  unfold determine_latest_libressl_body, try_or_return, urlopen_listing.
  destruct (libressl_listing w _); reflexivity.
Qed.

(** A hit of either cache answers from the cache and sends nothing. *)
Lemma openssl_hit w k v s :
  cache_get k (openssl_cache s) = Some v ->
  determine_latest_openssl w k s
  = (Ok v, set_openssl_cache ((k, v) :: cache_remove k (openssl_cache s)) s).
Proof.
  intros H. unfold determine_latest_openssl, lru_cache. now rewrite H.
Qed.

Lemma libressl_hit w k v s :
  cache_get k (libressl_cache s) = Some v ->
  determine_latest_libressl w k s
  = (Ok v, set_libressl_cache ((k, v) :: cache_remove k (libressl_cache s)) s).
Proof.
  intros H. unfold determine_latest_libressl, lru_cache. now rewrite H.
Qed.

(** A miss sends one request and stores what the function returned. *)
Lemma openssl_miss w k s :
  cache_get k (openssl_cache s) = None ->
  determine_latest_openssl w k s
  = let s' := set_requests (requests s ++ [openssl_request w]) s in
    match openssl_outcome (openssl_tags w (count_url openssl_url (requests s))) with
    | Ok v => (Ok v, set_openssl_cache (firstn 5 ((k, v) :: openssl_cache s)) s')
    | Raise e => (Raise e, s')
    end.
Proof.
  intros H. unfold determine_latest_openssl, lru_cache.
  rewrite H, openssl_body_eq. now destruct (openssl_outcome _).
Qed.

Lemma libressl_miss w k s :
  cache_get k (libressl_cache s) = None ->
  determine_latest_libressl w k s
  = let s' := set_requests (requests s ++ [Get libressl_url []]) s in
    match libressl_outcome (libressl_listing w (count_url libressl_url (requests s))) with
    | Ok v => (Ok v, set_libressl_cache (firstn 5 ((k, v) :: libressl_cache s)) s')
    | Raise e => (Raise e, s')
    end.
Proof.
  intros H. unfold determine_latest_libressl, lru_cache.
  rewrite H, libressl_body_eq. now destruct (libressl_outcome _).
Qed.

(** Neither resolver touches the matrix or the output streams. *)
Lemma openssl_frame w k s :
  same_output s (snd (determine_latest_openssl w k s)).
Proof.
  destruct (cache_get k (openssl_cache s)) as [v|] eqn:E.
  - rewrite (openssl_hit _ _ _ _ E). now repeat split.
  - rewrite (openssl_miss _ _ _ E). cbv zeta.
    destruct (openssl_outcome _); now repeat split.
Qed.

Lemma libressl_frame w k s :
  same_output s (snd (determine_latest_libressl w k s)).
Proof.
  destruct (cache_get k (libressl_cache s)) as [v|] eqn:E.
  - rewrite (libressl_hit _ _ _ _ E). now repeat split.
  - rewrite (libressl_miss _ _ _ E). cbv zeta.
    destruct (libressl_outcome _); now repeat split.
Qed.

(** A resolved LibreSSL string always starts with the variable name. *)
Lemma libressl_outcome_shape r v :
  libressl_outcome r = Ok v -> exists x, v = "LIBRESSL_VERSION=" ++ x.
Proof.
  destruct r as [|body]; simpl.
  - intros H; inversion H. now exists "failed_to_detect".
  - unfold latest_libressl_of. destruct body as [lines|e]; simpl; [|discriminate].
    destruct (scan_lines lines None) as [[x|]|e]; simpl; try discriminate.
    intros H; inversion H. now exists x.
Qed.

(** ** The TLS loop *)

Lemma ssl_step_eq w os T cc m s :
  ssl_step w os T cc m s
  = match resolve w m s with
    | (Ok v, s') =>
        (Ok tt, set_matrix (matrix s' ++ [to_dict (ssl_entry os T cc m v)]) s')
    | (Raise e, s') => (Raise e, s')
    end.
Proof.
  unfold ssl_step, resolve. cbn [bind].
  destruct (if PyStr.contains "LIBRESSL" m && PyStr.contains "latest" m
            then _ else _) as [[v|e] s1]; [|reflexivity].
  destruct (if PyStr.contains "OPENSSL" v && PyStr.contains "latest" v
            then _ else _) as [[v'|e] s2]; reflexivity.
Qed.

Lemma resolve_pinned w m s :
  PyStr.contains "latest" m = false -> resolve w m s = (Ok m, s).
Proof.
  intros H. unfold resolve. cbn [bind].
  rewrite H, !andb_false_r. cbn. now rewrite H, andb_false_r.
Qed.

Lemma resolve_frame w m s : same_output s (snd (resolve w m s)).
Proof.
  unfold resolve. cbn [bind].
  assert (Hl : same_output s
            (snd ((if PyStr.contains "LIBRESSL" m && PyStr.contains "latest" m
                   then determine_latest_libressl w m else ret m) s))).
  { destruct (_ && _); [apply libressl_frame | now repeat split]. }
  destruct ((if PyStr.contains "LIBRESSL" m && PyStr.contains "latest" m
             then determine_latest_libressl w m else ret m) s)
    as [[v|e] s1]; [|exact Hl].
  cbn [snd] in Hl.
  assert (Ho : same_output s1
            (snd ((if PyStr.contains "OPENSSL" v && PyStr.contains "latest" v
                   then determine_latest_openssl w v else ret v) s1))).
  { destruct (_ && _); [apply openssl_frame | now repeat split]. }
  destruct ((if PyStr.contains "OPENSSL" v && PyStr.contains "latest" v
             then determine_latest_openssl w v else ret v) s1)
    as [r s2].
  cbn [snd] in Ho |- *.
  destruct Hl as (A & B & C & D), Ho as (A' & B' & C' & D').
  repeat split; congruence.
Qed.

(** The turns for markers without [latest] only append their entries. *)
Lemma for_each_pinned w os T cc (markers : list string) s :
  Forall (fun m => PyStr.contains "latest" m = false) markers ->
  for_each markers (ssl_step w os T cc) s
  = (Ok tt,
     set_matrix
       (matrix s ++ map (fun m => to_dict (ssl_entry os T cc m m)) markers) s).
Proof.
  intros H. revert s. induction H as [|m markers Hm _ IH]; intros s.
  - cbn. rewrite app_nil_r. now destruct s.
  - cbn [for_each bind map]. rewrite ssl_step_eq, (resolve_pinned _ _ _ Hm).
    rewrite IH. cbn. now rewrite <- app_assoc.
Qed.

(** ** The Linux legs *)

Lemma for_each_app {A} (l1 l2 : list A) (f : A -> M unit) s :
  for_each (l1 ++ l2) f s
  = match for_each l1 f s with
    | (Ok _, s') => for_each l2 f s'
    | (Raise e, s') => (Raise e, s')
    end.
Proof.
  revert s. induction l1 as [|x l1 IH]; intros s; cbn [app for_each bind ret].
  - reflexivity.
  - destruct (f x s) as [[u|e] s1]; [apply IH | reflexivity].
Qed.

Lemma pinned_no_latest :
  Forall (fun m => PyStr.contains "latest" m = false) pinned_ssl_versions.
Proof. repeat constructor. Qed.

(** The entries of a leg before the first [latest] marker. *)
Lemma linux_leg_eq w ref os T cc s :
  linux_leg w ref os T cc s
  = for_each (if stable ref then []
              else ["OPENSSL_VERSION=latest"; "LIBRESSL_VERSION=latest"])
      (ssl_step w os T cc)
      (set_matrix
         (matrix s
          ++ map to_dict (leg_entries os T cc (unresolved pinned_ssl_versions)))
         s).
Proof.
  unfold linux_leg, ssl_versions.
  cbn [bind matrix_append for_each ret].
  assert (E : for_each (if negb (stable ref)
                        then (pinned_ssl_versions
                              ++ ["OPENSSL_VERSION=latest"; "LIBRESSL_VERSION=latest"])%list
                        else pinned_ssl_versions)
              = for_each (pinned_ssl_versions
                          ++ (if stable ref then []
                              else ["OPENSSL_VERSION=latest";
                                    "LIBRESSL_VERSION=latest"]))%list).
  { destruct (stable ref); cbn [negb]; [now rewrite app_nil_r | reflexivity]. }
  rewrite E, for_each_app, (for_each_pinned _ _ _ _ _ _ pinned_no_latest).
  f_equal. destruct s. cbn. now rewrite <- !app_assoc.
Qed.

Lemma linux_legs_stable w ref os T s :
  stable ref = true ->
  for_each ["gcc"; "clang"] (linux_leg w ref os T) s
  = (Ok tt,
     set_matrix
       (matrix s
        ++ map to_dict
             (leg_entries os T "gcc" (unresolved pinned_ssl_versions)
              ++ leg_entries os T "clang" (unresolved pinned_ssl_versions)))
       s).
Proof.
  intros H. cbn [for_each bind]. rewrite !linux_leg_eq, H.
  cbn [for_each ret]. rewrite linux_leg_eq, H. cbn [for_each ret].
  destruct s. cbn [set_matrix matrix stdout stderr requests openssl_cache
                   libressl_cache output_file].
  now rewrite map_app, app_assoc.
Qed.

(** What the two [latest] markers resolve to, by the state of the
    caches. *)
Lemma resolve_openssl_latest w s :
  resolve w "OPENSSL_VERSION=latest" s
  = determine_latest_openssl w "OPENSSL_VERSION=latest" s.
Proof. reflexivity. Qed.

Lemma resolve_libressl_latest w s :
  resolve w "LIBRESSL_VERSION=latest" s
  = match determine_latest_libressl w "LIBRESSL_VERSION=latest" s with
    | (Ok vl, s') =>
        if retested vl then determine_latest_openssl w vl s' else (Ok vl, s')
    | (Raise e, s') => (Raise e, s')
    end.
Proof.
  unfold resolve. cbn [bind PyStr.contains PyStr.startswith Ascii.eqb
                       Bool.eqb andb orb].
  destruct (determine_latest_libressl w _ s) as [[vl|e] s']; [|reflexivity].
  unfold retested. now destruct (_ && _).
Qed.

(** The development legs, step by step: the first leg fills the two
    caches, the second is answered from them. *)
Ltac field_simpl_in E :=
  unfold set_matrix, set_requests, set_openssl_cache, set_libressl_cache,
         set_stdout in E;
  cbn [matrix stdout stderr requests openssl_cache libressl_cache output_file
       fst snd] in E.

Lemma linux_legs_dev w ref s :
  stable ref = false ->
  requests s = [] -> openssl_cache s = [] -> libressl_cache s = [] ->
  dev_legs_post w s
    (for_each ["gcc"; "clang"] (linux_leg w ref "ubuntu-latest" "linux-glibc") s).
Proof.
  intros Hst Hr Ho Hl. destruct s as [out err rq oc lc mx f].
  cbn in Hr, Ho, Hl. subst rq oc lc.
  remember (for_each _ _ _) as rs eqn:E.
  unfold dev_legs_post, dev_requests, dev_resolution.
  cbn [for_each bind] in E. rewrite linux_leg_eq, Hst in E. cbn [for_each bind] in E.
  rewrite ssl_step_eq, resolve_openssl_latest, openssl_miss in E by reflexivity.
  field_simpl_in E. cbn [count_url filter length app] in E. cbv zeta in E.
  destruct (openssl_outcome (openssl_tags w 0)) as [vo|e]; cbn [rbind].
  2:{ subst rs. cbn [fst snd stdout stderr output_file requests]. repeat split. }
  rewrite ssl_step_eq, resolve_libressl_latest, libressl_miss in E by reflexivity.
  field_simpl_in E. cbv zeta in E.
  change (count_url libressl_url [openssl_request w]) with 0 in E.
  destruct (libressl_outcome (libressl_listing w 0)) as [vl|e] eqn:El; cbn [rbind].
  2:{ subst rs. cbn [fst snd stdout stderr output_file requests]. repeat split. }
  destruct (libressl_outcome_shape _ _ El) as [x Hx].
  field_simpl_in E.
  subst vl.
  destruct (retested _) eqn:Ert.
  - rewrite openssl_miss in E by reflexivity.
    field_simpl_in E. cbv zeta in E.
    change (count_url openssl_url ([openssl_request w] ++ [Get libressl_url []]))
      with 1 in E.
    destruct (openssl_outcome (openssl_tags w 1)) as [v2|e]; cbn [rbind].
    2:{ subst rs. cbn [fst snd stdout stderr output_file requests]. repeat split. }
    field_simpl_in E. cbn [ret] in E.
    rewrite linux_leg_eq, Hst in E. cbn [for_each bind] in E.
    rewrite ssl_step_eq, resolve_openssl_latest in E.
    field_simpl_in E.
    rewrite (openssl_hit _ _ vo) in E by reflexivity.
    field_simpl_in E.
    rewrite ssl_step_eq, resolve_libressl_latest in E.
    rewrite (libressl_hit _ _ ("LIBRESSL_VERSION=" ++ x)) in E by reflexivity.
    field_simpl_in E. rewrite Ert in E.
    rewrite (openssl_hit _ _ v2) in E
      by (cbn; rewrite ?String.eqb_refl; reflexivity).
    field_simpl_in E. cbn [ret] in E.
    subst rs. cbn [fst snd stdout stderr output_file requests matrix].
    repeat split. exists vo, v2. split; [reflexivity|].
    rewrite <- !app_assoc. reflexivity.
  - field_simpl_in E. cbn [ret] in E.
    rewrite linux_leg_eq, Hst in E. cbn [for_each bind] in E.
    rewrite ssl_step_eq, resolve_openssl_latest in E.
    field_simpl_in E.
    rewrite (openssl_hit _ _ vo) in E by reflexivity.
    field_simpl_in E.
    rewrite ssl_step_eq, resolve_libressl_latest in E.
    rewrite (libressl_hit _ _ ("LIBRESSL_VERSION=" ++ x)) in E by reflexivity.
    field_simpl_in E. rewrite Ert in E.
    field_simpl_in E. cbn [ret] in E.
    subst rs. cbn [fst snd stdout stderr output_file requests matrix].
    repeat split. exists vo, ("LIBRESSL_VERSION=" ++ x). split; [reflexivity|].
    rewrite <- !app_assoc. reflexivity.
Qed.

(** ** The whole run *)

Lemma append_assoc (a b c : string) : (a ++ b) ++ c = a ++ b ++ c.
Proof. induction a as [|x a IH]; cbn; [reflexivity | now rewrite IH]. Qed.

Lemma write_output_eq w s :
  write_output w s
  = (if output_ok w then Ok tt else Raise OSError,
     set_output_file
       (output_file s
        ++ match GITHUB_OUTPUT w with
           | Some path =>
               if open_succeeds w
               then [(path,
                      "matrix="
                      ++ Json.dumps None false
                           (PDict [("include", PList (matrix s))])
                      ++ Json.nl)]
               else []
           | None => []
           end) s).
Proof.
  unfold write_output, output_ok.
  destruct (GITHUB_OUTPUT w) as [path|]; [destruct (open_succeeds w)|];
    cbn [ret]; try reflexivity;
    destruct s; cbn; now rewrite app_nil_r.
Qed.

Lemma finish_eq w ref s :
  finish w ref s
  = write_output w
      (set_stdout
         (stdout s
          ++ Json.dumps (Some 4) true
               (PList (matrix s ++ [to_dict (macos_entry ref)]))
          ++ Json.nl)
         (set_matrix (matrix s ++ [to_dict (macos_entry ref)]) s)).
Proof. reflexivity. Qed.

Lemma main_eq prog ref w :
  main [prog; ref] w initial
  = match for_each ["gcc"; "clang"]
            (linux_leg w ref (linux_os ref) "linux-glibc")
            (set_stdout (banner ref ++ Json.nl) initial) with
    | (Ok _, s) => finish w ref s
    | (Raise e, s) => (Raise e, s)
    end.
Proof. reflexivity. Qed.

Lemma main_spec prog ref w : main_post w ref (main [prog; ref] w initial).
Proof.
  rewrite main_eq. unfold main_post, run_requests, resolution, linux_os.
  destruct (stable ref) eqn:Hst.
  - rewrite (linux_legs_stable _ _ _ _ _ Hst), finish_eq, write_output_eq.
    unfold stdout_text, written, matrix_entries, linux_os, output_line.
    rewrite Hst. cbn [fst snd].
    unfold set_output_file, set_stdout, set_matrix, initial.
    cbn [matrix stdout stderr requests openssl_cache libressl_cache
         output_file app].
    rewrite !map_app, <- !app_assoc, append_assoc.
    repeat split.
  - pose proof (linux_legs_dev w ref (set_stdout (banner ref ++ Json.nl) initial)
                  Hst eq_refl eq_refl eq_refl) as P.
    destruct (for_each _ _ _) as [[u|e] s1].
    + destruct P as (Pout & Perr & Pf & Prq & vo & vl & Hres & Hm).
      cbn [fst snd] in *. rewrite Hres. cbn [rbind fst snd].
      rewrite finish_eq, write_output_eq.
      unfold stdout_text, written, matrix_entries, linux_os, output_line.
      rewrite Hst. cbn [fst snd].
      unfold set_output_file, set_stdout, set_matrix.
      cbn [matrix stdout stderr requests openssl_cache libressl_cache
           output_file].
      rewrite Hm, Pout, Pf, Perr, Prq. cbn [set_stdout initial stdout matrix
        output_file stderr app].
      rewrite !map_app, <- !app_assoc, append_assoc.
      repeat split.
    + destruct P as (Pout & Perr & Pf & Prq & Hres).
      cbn [fst snd] in *. rewrite Hres. cbn [rbind]. repeat split; assumption.
Qed.

(** The end of the process changes the standard error only. *)
Lemma at_exit_frame w rs :
  fst (at_exit w rs) = fst rs
  /\ stdout (snd (at_exit w rs)) = stdout (snd rs)
  /\ matrix (snd (at_exit w rs)) = matrix (snd rs)
  /\ requests (snd (at_exit w rs)) = requests (snd rs)
  /\ output_file (snd (at_exit w rs)) = output_file (snd rs)
  /\ stderr (snd (at_exit w rs))
     = stderr (snd rs)
       ++ match fst rs with
          | Ok _ | Raise (SystemExit _) => ""
          | Raise e => traceback w e
          end.
Proof.
  assert (N : forall s : string, s = s ++ "").
  { induction s as [|c s IH]; cbn; [reflexivity | now rewrite <- IH]. }
  destruct rs as [[u|[]] s]; cbn; repeat split; auto.
Qed.

Lemma run_spec prog ref w : run_post w ref (run [prog; ref] w).
Proof.
  destruct (main_spec prog ref w) as (Hrq & Herr & P).
  destruct (at_exit_frame w (main [prog; ref] w initial))
    as (Ffst & Fout & Fm & Frq & Ff & Ferr).
  unfold run, run_post. rewrite Ffst, Fout, Fm, Frq, Ff, Ferr, Herr.
  split; [exact Hrq|]. split; [reflexivity | exact P].
Qed.

Lemma startswith_app (a b : string) : PyStr.startswith a (a ++ b) = true.
Proof.
  induction a as [|x a IH]; cbn; [reflexivity|].
  now rewrite Ascii.eqb_refl, IH.
Qed.

(** A run with one argument that raises nothing. *)
Lemma run_ok prog ref w :
  fst (run [prog; ref] w) = Ok tt ->
  exists tls,
    resolution w ref = Ok tls
    /\ output_ok w = true
    /\ matrix (snd (run [prog; ref] w)) = map to_dict (matrix_entries ref tls)
    /\ stdout (snd (run [prog; ref] w)) = stdout_text ref (matrix_entries ref tls).
Proof.
  intros H. destruct (run_spec prog ref w) as (_ & _ & P).
  destruct (resolution w ref) as [tls|e].
  - destruct P as (Pr & Pm & Pout & _). exists tls. repeat split; try assumption.
    rewrite H in Pr. now destruct (output_ok w).
  - destruct P as (Pr & _). congruence.
Qed.

Lemma run_completes prog ref w tls :
  resolution w ref = Ok tls -> output_ok w = true ->
  fst (run [prog; ref] w) = Ok tt.
Proof.
  intros Hres Hout. destruct (run_spec prog ref w) as (_ & _ & P).
  rewrite Hres, Hout in P. tauto.
Qed.

(** The markers of a run resolve to a list of one of two shapes. *)
Lemma resolution_shape w ref tls :
  resolution w ref = Ok tls ->
  (stable ref = true /\ tls = unresolved pinned_ssl_versions)
  \/ (stable ref = false
      /\ exists vo vl, dev_resolution w = Ok (vo, vl) /\ tls = dev_tls vo vl).
Proof.
  unfold resolution. destruct (stable ref); intros H.
  - left. split; congruence.
  - right. split; [reflexivity|].
    destruct (dev_resolution w) as [[vo vl]|e]; cbn in H; [|discriminate].
    injection H as <-. exists vo, vl. now split.
Qed.

(** A run with a wrong number of arguments. *)
Lemma run_usage prog args w :
  length args <> 1 ->
  run (prog :: args) w
  = (Raise (SystemExit 1),
     set_stderr ("Usage: " ++ prog ++ " <ref_name>" ++ Json.nl) initial).
Proof.
  intros H. destruct args as [|a [|b l]]; cbn in H; try lia.
  - cbn. now rewrite append_assoc.
  - cbn. now rewrite append_assoc.
Qed.

(** ** Reading the emitted matrix *)

Lemma str_item_to_dict (e : MatrixEntry) :
  str_item "name" (to_dict e) = e_name e
  /\ str_item "os" (to_dict e) = e_os e
  /\ str_item "TARGET" (to_dict e) = e_TARGET e
  /\ str_item "CC" (to_dict e) = e_CC e.
Proof. destruct e as [n o t c [v|] fl]; repeat split. Qed.

Lemma item_ssl_to_dict (e : MatrixEntry) :
  item "ssl" (to_dict e) = option_map PStr (e_ssl e).
Proof. destruct e as [n o t c [v|] fl]; reflexivity. Qed.

Lemma item_flags_to_dict (e : MatrixEntry) :
  item "FLAGS" (to_dict e) = Some (PList (map PStr (e_FLAGS e))).
Proof. destruct e as [n o t c [v|] fl]; reflexivity. Qed.

(** Filtering a leg by compiler keeps all of it or nothing. *)
Lemma linux_entries_leg os cc cc' tls :
  linux_entries cc' (map to_dict (leg_entries os "linux-glibc" cc tls))
  = if String.eqb cc cc'
    then map to_dict (leg_entries os "linux-glibc" cc tls) else [].
Proof.
  unfold linux_entries, leg_entries. rewrite map_app, filter_app.
  assert (T : forall l,
    filter (fun d => String.eqb (str_item "TARGET" d) "linux-glibc"
                     && String.eqb (str_item "CC" d) cc')
      (map to_dict
         (map (fun mr => ssl_entry os "linux-glibc" cc (fst mr) (snd mr)) l))
    = if String.eqb cc cc'
      then map to_dict
             (map (fun mr => ssl_entry os "linux-glibc" cc (fst mr) (snd mr)) l)
      else []).
  { induction l as [|mr l IH]; cbn [map filter].
    - now destruct (String.eqb cc cc').
    - rewrite IH. cbn. now destruct (String.eqb cc cc'). }
  rewrite T. cbn. now destruct (String.eqb cc cc').
Qed.

Lemma linux_entries_matrix ref tls cc :
  In cc ["gcc"; "clang"] ->
  linux_entries cc (map to_dict (matrix_entries ref tls))
  = map to_dict (leg_entries (linux_os ref) "linux-glibc" cc tls).
Proof.
  intros H. unfold matrix_entries.
  rewrite !map_app. unfold linux_entries at 1. rewrite !filter_app.
  fold (linux_entries cc
          (map to_dict (leg_entries (linux_os ref) "linux-glibc" "gcc" tls))).
  fold (linux_entries cc
          (map to_dict (leg_entries (linux_os ref) "linux-glibc" "clang" tls))).
  rewrite !linux_entries_leg.
  destruct H as [<-|[<-|[]]]; cbn; now rewrite ?app_nil_r.
Qed.

(** ** Failures of the version requests (claim C1) *)

(** C1, as stated, fails: only [urlopen] is inside the [try].  A reply
    whose body is not JSON, or is JSON of another shape, or a listing
    without a signature file, raises out of the resolver and ends the
    run with exit code 1 before any JSON is printed. *)
Lemma C1_counterexample :
  fst (determine_latest_openssl malformed_tags "OPENSSL_VERSION=latest" initial)
  = Raise ValueError
  /\ fst (run ["matrix.py"; "master"] malformed_tags) = Raise ValueError
  /\ exit_code (fst (run ["matrix.py"; "master"] malformed_tags)) = 1
  /\ stdout (snd (run ["matrix.py"; "master"] malformed_tags))
     = banner "master" ++ Json.nl
  /\ fst (determine_latest_openssl unexpected_tags "OPENSSL_VERSION=latest" initial)
     = Raise TypeError
  /\ fst (determine_latest_libressl empty_listing "LIBRESSL_VERSION=latest" initial)
     = Raise UnboundLocalError.
Proof. vm_compute. repeat split. Qed.

Lemma in_matrix_entries ref tls cc mr :
  In cc ["gcc"; "clang"] -> In mr tls ->
  In (to_dict (ssl_entry (linux_os ref) "linux-glibc" cc (fst mr) (snd mr)))
     (map to_dict (matrix_entries ref tls)).
Proof.
  intros Hcc Hmr. apply in_map. unfold matrix_entries, leg_entries.
  rewrite !in_app_iff.
  destruct Hcc as [<-|[<-|[]]].
  - left. right.
    apply (in_map (fun mr => ssl_entry _ _ _ (fst mr) (snd mr))), Hmr.
  - right. left. right.
    apply (in_map (fun mr => ssl_entry _ _ _ (fst mr) (snd mr))), Hmr.
Qed.

(** C1, amended: when the request itself fails ([urlopen] raises: no
    connection, or a status outside 2xx), a resolver call that is not
    answered from the cache returns the sentinel and raises nothing.
    In a development run where every OpenSSL tags request fails, the
    LibreSSL resolver returns and the output file can be written, the
    run completes with exit code 0 and the matrix has, for each
    compiler, the entry whose [ssl] is the OpenSSL sentinel. *)
Theorem C1_request_failure (w : world) :
  (forall k s,
     cache_get k (openssl_cache s) = None ->
     openssl_tags w (count_url openssl_url (requests s)) = TagsUrlopenRaises ->
     fst (determine_latest_openssl w k s) = Ok "OPENSSL_VERSION=failed_to_detect")
  /\ (forall k s,
        cache_get k (libressl_cache s) = None ->
        libressl_listing w (count_url libressl_url (requests s))
        = ListingUrlopenRaises ->
        fst (determine_latest_libressl w k s)
        = Ok "LIBRESSL_VERSION=failed_to_detect")
  /\ (forall prog ref vl cc,
        PyStr.contains "haproxy-" ref = false ->
        (forall n, openssl_tags w n = TagsUrlopenRaises) ->
        libressl_outcome (libressl_listing w 0) = Ok vl ->
        output_ok w = true ->
        In cc ["gcc"; "clang"] ->
        fst (run [prog; ref] w) = Ok tt
        /\ exit_code (fst (run [prog; ref] w)) = 0
        /\ In (entry ("ubuntu-latest, " ++ cc ++ ", ssl=openssl=failed_to_detect")
                     "ubuntu-latest" "linux-glibc" cc
                     (Some "OPENSSL_VERSION=failed_to_detect")
                     ["USE_OPENSSL=1"; "SSL_LIB=${HOME}/opt/lib";
                      "SSL_INC=${HOME}/opt/include"])
              (matrix (snd (run [prog; ref] w)))).
Proof.
  split; [|split].
  - intros k s Hmiss Hreply. now rewrite (openssl_miss _ _ _ Hmiss), Hreply.
  - intros k s Hmiss Hreply. now rewrite (libressl_miss _ _ _ Hmiss), Hreply.
  - intros prog ref vl cc Hdev Hfail Hl Hout Hcc.
    assert (Hres : exists v,
               resolution w ref
               = Ok (dev_tls "OPENSSL_VERSION=failed_to_detect" v)).
    { unfold resolution, dev_resolution, stable.
      rewrite Hdev, !Hfail, Hl. cbn [openssl_outcome rbind].
      destruct (retested vl); cbn [rbind fst snd]; eauto. }
    destruct Hres as (v & Hres).
    pose proof (run_completes prog _ _ _ Hres Hout) as Hok.
    split; [exact Hok|]. split; [now rewrite Hok|].
    destruct (run_ok _ _ _ Hok) as (tls & Hres' & _ & Hm & _).
    rewrite Hm. rewrite Hres in Hres'. injection Hres' as <-.
    assert (Hos : linux_os ref = "ubuntu-latest").
    { unfold linux_os, stable. now rewrite Hdev. }
    pose proof (in_matrix_entries ref
                  (dev_tls "OPENSSL_VERSION=failed_to_detect" v) cc
                  ("OPENSSL_VERSION=latest", "OPENSSL_VERSION=failed_to_detect")
                  Hcc) as Hin.
    rewrite Hos in Hin. apply Hin.
    unfold dev_tls. apply in_or_app. right. left. reflexivity.
Qed.

Lemma C1_request_failure_witness :
  fst (determine_latest_openssl offline "OPENSSL_VERSION=latest" initial)
  = Ok "OPENSSL_VERSION=failed_to_detect"
  /\ exit_code (fst (run ["matrix.py"; "master"] offline)) = 0.
Proof.
  split.
  - apply (proj1 (C1_request_failure offline)); reflexivity.
  - destruct (proj2 (proj2 (C1_request_failure offline))
                "matrix.py" "master" "LIBRESSL_VERSION=failed_to_detect" "gcc"
                eq_refl (fun _ => eq_refl) eq_refl eq_refl (or_introl eq_refl))
      as (_ & H & _).
    exact H.
Defined.

(** ** The shape of a Linux leg (claim C2) *)

(** C2, as stated, fails: a compiler gets four [ssl=] entries on a
    stable branch and six on a development branch, not five and
    seven. *)
Lemma C2_counterexample :
  fst (run ["matrix.py"; "haproxy-2.8"] offline) = Ok tt
  /\ count_kind Ssl
       (linux_entries "gcc"
          (matrix (snd (run ["matrix.py"; "haproxy-2.8"] offline)))) = 4
  /\ count_kind Ssl
       (linux_entries "gcc"
          (matrix (snd (run ["matrix.py"; "haproxy-2.8"] offline)))) <> 5
  /\ fst (run ["matrix.py"; "master"] online) = Ok tt
  /\ count_kind Ssl
       (linux_entries "gcc"
          (matrix (snd (run ["matrix.py"; "master"] online)))) = 6
  /\ count_kind Ssl
       (linux_entries "gcc"
          (matrix (snd (run ["matrix.py"; "master"] online)))) <> 7.
Proof. vm_compute. repeat split; discriminate. Qed.

(** C2, amended: in a run that completes, the entries of each compiler
    of the Linux target are, in this order, one [no features], one
    [all features], one [ASAN, all features], one [gz=] entry and then
    four [ssl=] entries on a stable branch, six on a development
    branch. *)
Theorem C2_linux_leg prog ref w cc :
  fst (run [prog; ref] w) = Ok tt ->
  In cc ["gcc"; "clang"] ->
  map kind_of (linux_entries cc (matrix (snd (run [prog; ref] w))))
  = ([NoFeatures; AllFeatures; AsanAllFeatures; Gz]
     ++ repeat Ssl (if PyStr.contains "haproxy-" ref then 4 else 6))%list.
Proof.
  intros Hok Hcc.
  destruct (run_ok _ _ _ Hok) as (tls & Hres & _ & Hm & _).
  rewrite Hm, (linux_entries_matrix _ _ _ Hcc).
  fold (stable ref). unfold linux_os.
  destruct (resolution_shape _ _ _ Hres)
    as [(-> & ->)|(-> & vo & vl & _ & ->)];
    destruct Hcc as [<-|[<-|[]]]; reflexivity.
Qed.

Lemma C2_linux_leg_witness :
  map kind_of
      (linux_entries "clang" (matrix (snd (run ["matrix.py"; "master"] online))))
  = [NoFeatures; AllFeatures; AsanAllFeatures; Gz; Ssl; Ssl; Ssl; Ssl; Ssl; Ssl].
Proof.
  apply (C2_linux_leg "matrix.py" "master" online "clang").
  - vm_compute. reflexivity.
  - right. left. reflexivity.
Defined.

(** ** Display names (claim C3) *)

(** C3, as stated, fails: the descriptor for the flag [USE_ZLIB=1] is
    [zlib=1], not [zlib], and the name of the entry ends in
    [gz=zlib=1]. *)
Lemma C3_counterexample :
  clean_compression "USE_ZLIB=1" <> "zlib"
  /\ nth_error
       (map (str_item "name")
            (linux_entries "gcc"
               (matrix (snd (run ["matrix.py"; "haproxy-2.8"] offline))))) 3
     = Some "ubuntu-22.04, gcc, gz=zlib=1".
Proof. split; [discriminate | vm_compute; reflexivity]. Qed.

(** C3, amended: [clean_compression] removes every [USE_] and
    lowercases, so [USE_ZLIB=1] gives [zlib=1] and the fourth entry of
    each compiler is named [<os>, <compiler>, gz=zlib=1];
    [clean_ssl] removes every [_VERSION] and lowercases, so
    [OPENSSL_VERSION=1.1.1s] gives [openssl=1.1.1s]. *)
Theorem C3_descriptors :
  clean_compression "USE_ZLIB=1" = "zlib=1"
  /\ clean_ssl "OPENSSL_VERSION=1.1.1s" = "openssl=1.1.1s"
  /\ (forall s, clean_compression ("USE_" ++ s) = clean_compression s)
  /\ (forall v, clean_ssl ("OPENSSL_VERSION=" ++ v) = "openssl=" ++ clean_ssl v)
  /\ (forall prog ref w cc,
        fst (run [prog; ref] w) = Ok tt ->
        In cc ["gcc"; "clang"] ->
        nth_error
          (map (str_item "name")
               (linux_entries cc (matrix (snd (run [prog; ref] w))))) 3
        = Some (linux_os ref ++ ", " ++ cc ++ ", gz=zlib=1")).
Proof.
  split; [reflexivity|]. split; [reflexivity|].
  split; [reflexivity|]. split; [reflexivity|].
  intros prog ref w cc Hok Hcc.
  destruct (run_ok _ _ _ Hok) as (tls & _ & _ & Hm & _).
  rewrite Hm, (linux_entries_matrix _ _ _ Hcc).
  reflexivity.
Qed.

Lemma C3_descriptors_witness :
  nth_error
    (map (str_item "name")
         (linux_entries "clang"
            (matrix (snd (run ["matrix.py"; "master"] online))))) 3
  = Some "ubuntu-latest, clang, gz=zlib=1".
Proof.
  apply (proj2 (proj2 (proj2 (proj2 C3_descriptors)))
           "matrix.py" "master" online "clang").
  - vm_compute; reflexivity.
  - right; left; reflexivity.
Defined.

(** ** The layout of standard output (claim C4) *)

Lemma join_indented (pre sep : string) (l : list string) :
  l <> [] ->
  pre ++ PyStr.join (sep ++ pre) l = PyStr.join sep (map (append pre) l).
Proof.
  induction l as [|x [|y l] IH]; intros H.
  - contradiction.
  - reflexivity.
  - change (PyStr.join (sep ++ pre) (x :: y :: l))
      with (x ++ (sep ++ pre) ++ PyStr.join (sep ++ pre) (y :: l)).
    change (PyStr.join sep (map (append pre) (x :: y :: l)))
      with ((pre ++ x) ++ sep ++ PyStr.join sep (map (append pre) (y :: l))).
    rewrite <- IH by discriminate. now rewrite !append_assoc.
Qed.

(** A non-empty list or dict on several lines. *)
Lemma block (level : nat) (opening closing : string) (l : list string) :
  l <> [] ->
  opening ++ Json.newline_indent (Some 4) (S level)
  ++ PyStr.join (Json.item_separator (Some 4)
                 ++ Json.newline_indent (Some 4) (S level)) l
  ++ Json.newline_indent (Some 4) level ++ closing
  = opening ++ Json.nl ++ Pretty.lines (S level) l
    ++ Json.nl ++ Pretty.indent level ++ closing.
Proof.
  intros H. unfold Pretty.lines.
  rewrite <- (join_indented _ _ _ H).
  change (Json.newline_indent (Some 4) (S level))
    with (Json.nl ++ Pretty.indent (S level)).
  change (Json.newline_indent (Some 4) level)
    with (Json.nl ++ Pretty.indent level).
  unfold Json.item_separator.
  now rewrite !append_assoc.
Qed.

Lemma flags_dumps (level : nat) (flags : list string) :
  Json.iterencode (Some 4) true level (PList (map PStr flags))
  = Pretty.flags_text level flags.
Proof.
  destruct flags as [|f flags]; [reflexivity|].
  unfold Pretty.flags_text.
  rewrite <- (block level "[" "]") by discriminate.
  cbn [Json.iterencode map]. rewrite !map_map. reflexivity.
Qed.

Lemma entry_dumps (e : MatrixEntry) :
  Json.iterencode (Some 4) true 1 (to_dict e) = Pretty.entry_text e.
Proof.
  destruct e as [n o t c ssl fl]. unfold Pretty.entry_text.
  rewrite <- (block 1 "{" "}") by (destruct ssl; discriminate).
  cbn [e_CC e_FLAGS e_TARGET e_name e_os e_ssl].
  rewrite <- flags_dumps.
  destruct ssl as [v|]; reflexivity.
Qed.

Lemma matrix_dumps (entries : list MatrixEntry) :
  Json.dumps (Some 4) true (PList (map to_dict entries))
  = Pretty.matrix_text entries.
Proof.
  destruct entries as [|e entries]; [reflexivity|].
  unfold Pretty.matrix_text.
  pose proof (block 0 "[" "]" (map Pretty.entry_text (e :: entries))) as B.
  change (Pretty.indent 0 ++ "]") with "]" in B.
  rewrite <- B by discriminate.
  unfold Json.dumps. cbn [Json.iterencode map].
  rewrite !map_map.
  rewrite (map_ext _ _ (fun x => entry_dumps x)). now rewrite entry_dumps.
Qed.

(** [sort_keys=True]: the items come out in ascending order of their
    keys, and they are the items that went in. *)
Lemma sorted_items_sorted (l : list (string * string)) :
  Sorted (fun a b => String.leb (fst a) (fst b) = true) (Json.sorted_items l).
Proof.
  assert (Ins : forall kv s,
            Sorted (fun a b => String.leb (fst a) (fst b) = true) s ->
            Sorted (fun a b => String.leb (fst a) (fst b) = true)
                   (Json.insert_item kv s)).
  { intros kv s Hs. induction Hs as [|x s Hs IH Hd]; cbn [Json.insert_item].
    - repeat constructor.
    - destruct (String.leb (fst kv) (fst x)) eqn:E.
      + constructor; [now constructor | now constructor].
      + constructor; [exact IH|].
        destruct (String.leb_total (fst kv) (fst x)) as [L|L]; [congruence|].
        destruct Hd as [|y s' Hxy]; cbn [Json.insert_item].
        * now constructor.
        * destruct (String.leb (fst kv) (fst y)); now constructor. }
  induction l as [|kv l IH]; cbn [Json.sorted_items fold_right].
  - constructor.
  - apply Ins, IH.
Qed.

Lemma sorted_items_permutation (l : list (string * string)) :
  Permutation l (Json.sorted_items l).
Proof.
  assert (Ins : forall kv s, Permutation (kv :: s) (Json.insert_item kv s)).
  { intros kv s. induction s as [|x s IH]; cbn [Json.insert_item].
    - reflexivity.
    - destruct (String.leb (fst kv) (fst x)); [reflexivity|].
      rewrite perm_swap. now constructor. }
  induction l as [|kv l IH]; cbn [Json.sorted_items fold_right].
  - constructor.
  - rewrite <- Ins. now constructor.
Qed.

(** C4, as stated, fails: standard output does not start with the JSON
    array but with the banner of line 32. *)
Lemma C4_counterexample :
  fst (run ["matrix.py"; "haproxy-2.8"] offline) = Ok tt
  /\ PyStr.startswith "Generating matrix for branch 'haproxy-2.8'."
       (stdout (snd (run ["matrix.py"; "haproxy-2.8"] offline))) = true
  /\ stdout (snd (run ["matrix.py"; "haproxy-2.8"] offline))
     <> Json.dumps (Some 4) true
          (PList (matrix (snd (run ["matrix.py"; "haproxy-2.8"] offline))))
        ++ Json.nl.
Proof.
  split; [vm_compute; reflexivity|]. split; [vm_compute; reflexivity|].
  intros H. apply (f_equal (PyStr.startswith "[")) in H.
  vm_compute in H. discriminate H.
Qed.

(** C4, amended: when a run completes, standard output is the line
    [Generating matrix for branch '<ref>'.] followed by the
    pretty-printed JSON array of the entries of the matrix: one object
    per entry, its keys in alphabetical order ([CC], [FLAGS], [TARGET],
    [name], [os], then [ssl] when present), four more spaces of
    indentation per nesting level, and a final newline. *)
Theorem C4_standard_output argv w :
  fst (run argv w) = Ok tt ->
  exists prog ref entries,
    argv = [prog; ref]
    /\ matrix (snd (run argv w)) = map to_dict entries
    /\ stdout (snd (run argv w))
       = banner ref ++ Json.nl ++ Pretty.matrix_text entries ++ Json.nl.
Proof.
  intros Hok.
  destruct argv as [|prog [|ref [|x l]]]; try discriminate Hok.
  destruct (run_ok _ _ _ Hok) as (tls & _ & _ & Hm & Hout).
  exists prog, ref, (matrix_entries ref tls).
  split; [reflexivity|]. split; [exact Hm|].
  rewrite Hout. unfold stdout_text. now rewrite matrix_dumps.
Qed.

Lemma C4_standard_output_witness :
  exists prog ref entries,
    ["matrix.py"; "haproxy-2.8"] = [prog; ref]
    /\ matrix (snd (run ["matrix.py"; "haproxy-2.8"] offline))
       = map to_dict entries
    /\ stdout (snd (run ["matrix.py"; "haproxy-2.8"] offline))
       = banner ref ++ Json.nl ++ Pretty.matrix_text entries ++ Json.nl.
Proof.
  apply (C4_standard_output ["matrix.py"; "haproxy-2.8"] offline).
  vm_compute. reflexivity.
Defined.

(** ** Branch classification (claim C5) *)

(** A property of every entry of the matrix, from the same property of
    the fixed entries, the TLS entries and the macOS entry. *)
Lemma Forall_matrix_entries (P : MatrixEntry -> Prop) ref tls :
  (forall cc, Forall P (fixed_entries (linux_os ref) "linux-glibc" cc)) ->
  (forall cc mr, In mr tls ->
     P (ssl_entry (linux_os ref) "linux-glibc" cc (fst mr) (snd mr))) ->
  P (macos_entry ref) ->
  Forall P (matrix_entries ref tls).
Proof.
  intros Hfix Hssl Hmac. unfold matrix_entries, leg_entries.
  rewrite !Forall_app. repeat split; try apply Hfix.
  - apply Forall_map, Forall_forall. intros mr Hmr. now apply Hssl.
  - apply Forall_map, Forall_forall. intros mr Hmr. now apply Hssl.
  - now constructor.
Qed.

Lemma Forall_to_dict (P : pyval -> Prop) l :
  Forall (fun e => P (to_dict e)) l -> Forall P (map to_dict l).
Proof. intros H. now apply Forall_map. Qed.

(** C5: a ref name containing [haproxy-] selects [ubuntu-22.04] and
    [macos-12] and only the pinned TLS markers, none of which mentions
    [latest]; any other ref name selects [ubuntu-latest] and
    [macos-latest] and adds the two [latest] markers.  In the emitted
    matrix every entry carries the [os] so selected, and a stable run
    sends no request. *)
Theorem C5_branch_classification (ref : string) :
  (if PyStr.contains "haproxy-" ref
   then linux_os ref = "ubuntu-22.04"
        /\ macos_os ref = "macos-12"
        /\ ssl_versions ref = pinned_ssl_versions
        /\ Forall (fun m => PyStr.contains "latest" m = false) (ssl_versions ref)
   else linux_os ref = "ubuntu-latest"
        /\ macos_os ref = "macos-latest"
        /\ ssl_versions ref
           = (pinned_ssl_versions
              ++ ["OPENSSL_VERSION=latest"; "LIBRESSL_VERSION=latest"])%list)
  /\ (forall prog w,
        fst (run [prog; ref] w) = Ok tt ->
        Forall (fun d =>
                  (str_item "TARGET" d = "linux-glibc"
                   /\ str_item "os" d = linux_os ref)
                  \/ (str_item "TARGET" d = "osx"
                      /\ str_item "os" d = macos_os ref))
               (matrix (snd (run [prog; ref] w)))
        /\ (PyStr.contains "haproxy-" ref = true ->
            requests (snd (run [prog; ref] w)) = []
            /\ Forall (fun d =>
                         forall v, item "ssl" d = Some (PStr v) ->
                                   In v pinned_ssl_versions)
                      (matrix (snd (run [prog; ref] w))))).
Proof.
  split.
  - unfold linux_os, macos_os, ssl_versions, stable.
    destruct (PyStr.contains "haproxy-" ref); cbn [negb]; repeat split.
    apply pinned_no_latest.
  - intros prog w Hok.
    destruct (run_ok _ _ _ Hok) as (tls & Hres & _ & Hm & _).
    destruct (run_spec prog ref w) as (Hrq & _).
    rewrite Hm. split.
    + apply Forall_to_dict, Forall_matrix_entries.
      * intros cc. repeat (constructor; [left; split; reflexivity|]).
        constructor.
      * intros cc mr _. left. split; reflexivity.
      * right. split; reflexivity.
    + intros Hst. split.
      * rewrite Hrq. unfold run_requests, stable. now rewrite Hst.
      * destruct (resolution_shape _ _ _ Hres) as [(_ & ->)|(Hdev & _)].
        2:{ unfold stable in Hdev. congruence. }
        apply Forall_to_dict, Forall_matrix_entries.
        -- intros cc. repeat (constructor; [intros v Hv; discriminate Hv|]).
           constructor.
        -- intros cc mr Hmr v Hv. rewrite item_ssl_to_dict in Hv.
           cbn in Hv. injection Hv as <-.
           unfold unresolved in Hmr. apply in_map_iff in Hmr.
           destruct Hmr as (m & <- & Hin). exact Hin.
        -- intros v Hv; discriminate Hv.
Qed.

Lemma C5_branch_classification_witness :
  requests (snd (run ["matrix.py"; "haproxy-2.8"] online)) = []
  /\ Forall (fun d =>
               (str_item "TARGET" d = "linux-glibc"
                /\ str_item "os" d = "ubuntu-22.04")
               \/ (str_item "TARGET" d = "osx" /\ str_item "os" d = "macos-12"))
            (matrix (snd (run ["matrix.py"; "haproxy-2.8"] online))).
Proof.
  assert (Hok : fst (run ["matrix.py"; "haproxy-2.8"] online) = Ok tt)
    by (vm_compute; reflexivity).
  destruct (proj2 (C5_branch_classification "haproxy-2.8")
              "matrix.py" online Hok) as (Hos & Hst).
  split.
  - exact (proj1 (Hst eq_refl)).
  - exact Hos.
Defined.

(** ** The flags of a TLS entry (claims C6 and C8) *)







(** C8: when a TLS turn of the loop completes, the entry it appends
    carries the resolved value [v] of the marker in its name and under
    [ssl], and under [FLAGS] the flags computed from the marker [m] as
    it stood in the candidate list: resolving [latest] changes nothing
    in them.  For the two [latest] markers these flags are the ones
    written out. *)
Theorem C8_flags_unchanged_by_resolution w os T cc m s :
  fst (ssl_step w os T cc m s) = Ok tt ->
  exists v,
    fst (resolve w m s) = Ok v
    /\ matrix (snd (ssl_step w os T cc m s))
       = (matrix s
          ++ [entry (entry_name os cc ("ssl=" ++ clean_ssl v)) os T cc
                    (Some v) (ssl_flags m)])%list
    /\ (m = "OPENSSL_VERSION=latest" ->
        ssl_flags m
        = ["USE_OPENSSL=1"; "SSL_LIB=${HOME}/opt/lib";
           "SSL_INC=${HOME}/opt/include"])
    /\ (m = "LIBRESSL_VERSION=latest" ->
        ssl_flags m
        = ["USE_OPENSSL=1"; "USE_QUIC=1"; "SSL_LIB=${HOME}/opt/lib";
           "SSL_INC=${HOME}/opt/include"]).
Proof.
  rewrite ssl_step_eq. pose proof (resolve_frame w m s) as (Hm & _).
  destruct (resolve w m s) as [[v|e] s']; cbn [fst snd] in *; [|discriminate].
  intros _. exists v. rewrite Hm.
  repeat split; intros ->; reflexivity.
Qed.

Lemma C8_flags_unchanged_by_resolution_witness :
  exists v,
    fst (resolve online "OPENSSL_VERSION=latest" initial) = Ok v
    /\ matrix (snd (ssl_step online "ubuntu-latest" "linux-glibc" "gcc"
                      "OPENSSL_VERSION=latest" initial))
       = [entry (entry_name "ubuntu-latest" "gcc" ("ssl=" ++ clean_ssl v))
                "ubuntu-latest" "linux-glibc" "gcc" (Some v)
                (ssl_flags "OPENSSL_VERSION=latest")].
Proof.
  destruct (C8_flags_unchanged_by_resolution online "ubuntu-latest"
              "linux-glibc" "gcc" "OPENSSL_VERSION=latest" initial)
    as (v & Hv & Hm & _).
  - vm_compute. reflexivity.
  - exists v. split; [exact Hv | exact Hm].
Defined.

(** ** Memoization (claim C7) *)

(** C7: the caches are keyed by the argument, and line 205 tests the
    string line 204 has just assigned.  When the listing makes the
    resolved LibreSSL string contain both [OPENSSL] and [latest], the
    OpenSSL resolver is called with it as a second key: in this run the
    tags are requested twice, not at most once, and the LibreSSL entries
    carry the OpenSSL string. *)
Theorem C7_tags_requested_twice :
  fst (run ["matrix.py"; "master"] retesting) = Ok tt
  /\ count_url openssl_url (requests (snd (run ["matrix.py"; "master"] retesting)))
     = 2
  /\ openssl_cache (snd (run ["matrix.py"; "master"] retesting))
     = [("LIBRESSL_VERSION=OPENSSLlatest", "OPENSSL_VERSION=3.2.0");
        ("OPENSSL_VERSION=latest", "OPENSSL_VERSION=3.2.0")]
  /\ nth_error
       (map (item "ssl")
            (linux_entries "gcc"
               (matrix (snd (run ["matrix.py"; "master"] retesting))))) 9
     = Some (Some (PStr "OPENSSL_VERSION=3.2.0")).
Proof. vm_compute. repeat split. Qed.

Lemma count_dev_requests w :
  count_url libressl_url (dev_requests w) <= 1
  /\ count_url openssl_url (dev_requests w) <= 2
  /\ ((forall vl, libressl_outcome (libressl_listing w 0) = Ok vl ->
                  retested vl = false) ->
      count_url openssl_url (dev_requests w) <= 1).
Proof.
  unfold dev_requests.
  destruct (openssl_outcome (openssl_tags w 0)) as [vo|e];
    [|cbn; repeat split; intros; lia].
  destruct (libressl_outcome (libressl_listing w 0)) as [vl|e];
    [|cbn; repeat split; intros; lia].
  destruct (retested vl) eqn:E; cbn;
    (split; [lia | split; [lia | intros H]]); try lia.
  specialize (H vl eq_refl). congruence.
Qed.

(** The requests of a run, whatever the command line. *)
Lemma requests_of_run argv w :
  requests (snd (run argv w)) = []
  \/ requests (snd (run argv w)) = dev_requests w.
Proof.
  destruct argv as [|prog [|ref [|x l]]]; try (left; reflexivity).
  destruct (run_spec prog ref w) as (Hrq & _). rewrite Hrq.
  unfold run_requests. destruct (stable ref); auto.
Qed.

(** The [ssl] values of a leg do not depend on the compiler. *)
Lemma ssl_of_leg os T cc tls :
  map (item "ssl") (map to_dict (leg_entries os T cc tls))
  = ([None; None; None; None]
     ++ map (fun mr => Some (PStr (snd mr))) tls)%list.
Proof.
  unfold leg_entries. rewrite !map_app. f_equal.
  rewrite !map_map. apply map_ext. intros mr. apply item_ssl_to_dict.
Qed.

(** What the memoization does give: each resolver is memoized on the
    marker it is called with, so a call whose marker is in the cache
    sends no request and returns the cached string.  In any run the
    LibreSSL listing is requested at most once and the OpenSSL tags at
    most twice, at most once unless the resolved LibreSSL string
    contains both [OPENSSL] and [latest]; and when the run completes,
    the two compilers carry the same [ssl] strings, entry by entry. *)
Lemma memoization_per_marker argv w :
  count_url libressl_url (requests (snd (run argv w))) <= 1
  /\ count_url openssl_url (requests (snd (run argv w))) <= 2
  /\ ((forall vl, libressl_outcome (libressl_listing w 0) = Ok vl ->
                  retested vl = false) ->
      count_url openssl_url (requests (snd (run argv w))) <= 1)
  /\ (forall k v s,
        cache_get k (openssl_cache s) = Some v ->
        fst (determine_latest_openssl w k s) = Ok v
        /\ requests (snd (determine_latest_openssl w k s)) = requests s)
  /\ (forall k v s,
        cache_get k (libressl_cache s) = Some v ->
        fst (determine_latest_libressl w k s) = Ok v
        /\ requests (snd (determine_latest_libressl w k s)) = requests s)
  /\ (fst (run argv w) = Ok tt ->
      map (item "ssl") (linux_entries "gcc" (matrix (snd (run argv w))))
      = map (item "ssl") (linux_entries "clang" (matrix (snd (run argv w))))).
Proof.
  destruct (count_dev_requests w) as (Cl & Co & Co1).
  assert (R := requests_of_run argv w).
  split; [|split; [|split; [|split; [|split]]]].
  - destruct R as [-> | ->]; [cbn; lia | exact Cl].
  - destruct R as [-> | ->]; [cbn; lia | exact Co].
  - intros H. destruct R as [-> | ->]; [cbn; lia | exact (Co1 H)].
  - intros k v s H. now rewrite (openssl_hit _ _ _ _ H).
  - intros k v s H. now rewrite (libressl_hit _ _ _ _ H).
  - intros Hok.
    destruct argv as [|prog [|ref [|x l]]]; try discriminate Hok.
    destruct (run_ok _ _ _ Hok) as (tls & _ & _ & Hm & _).
    rewrite Hm, !linux_entries_matrix, !ssl_of_leg; cbn; auto.
Qed.

Example memoization_online :
  count_url openssl_url (requests (snd (run ["matrix.py"; "master"] online))) <= 1
  /\ map (item "ssl")
         (linux_entries "gcc" (matrix (snd (run ["matrix.py"; "master"] online))))
     = map (item "ssl")
         (linux_entries "clang" (matrix (snd (run ["matrix.py"; "master"] online)))).
Proof.
  destruct (memoization_per_marker ["matrix.py"; "master"] online)
    as (_ & _ & H1 & _ & _ & H2).
  split.
  - apply H1. intros vl Hvl. vm_compute in Hvl. injection Hvl as <-.
    vm_compute. reflexivity.
  - apply H2. vm_compute. reflexivity.
Qed.

(** ** The command line (claim C9) *)

(** C9: with no argument, or with two or more, the script prints the
    usage line on standard error and exits with code 1, having written
    nothing on standard output and nothing to the output file; with
    exactly one argument it goes on (standard output starts with the
    banner; the script prints nothing on standard error, which stays
    empty unless an exception escapes and the interpreter reports it)
    and exits with code 0 whenever nothing is raised, which is the case
    as soon as the resolvers return and the output file can be
    written. *)
Theorem C9_argument_count prog args w :
  (length args <> 1 ->
   run (prog :: args) w
   = (Raise (SystemExit 1),
      set_stderr ("Usage: " ++ prog ++ " <ref_name>" ++ Json.nl) initial)
   /\ exit_code (fst (run (prog :: args) w)) = 1
   /\ stdout (snd (run (prog :: args) w)) = ""
   /\ output_file (snd (run (prog :: args) w)) = [])
  /\ (forall ref,
        args = [ref] ->
        PyStr.startswith (banner ref ++ Json.nl)
          (stdout (snd (run (prog :: args) w))) = true
        /\ stderr (snd (run (prog :: args) w))
           = match fst (run (prog :: args) w) with
             | Ok _ | Raise (SystemExit _) => ""
             | Raise e => traceback w e
             end
        /\ (fst (run (prog :: args) w) = Ok tt ->
            exit_code (fst (run (prog :: args) w)) = 0)
        /\ (forall tls,
              resolution w ref = Ok tls -> output_ok w = true ->
              exit_code (fst (run (prog :: args) w)) = 0)).
Proof.
  split.
  - intros H. rewrite (run_usage _ _ _ H). repeat split.
  - intros ref ->. destruct (run_spec prog ref w) as (_ & Herr & P).
    repeat split.
    + destruct (resolution w ref) as [tls|e].
      * destruct P as (_ & _ & -> & _). unfold stdout_text.
        rewrite <- append_assoc. apply startswith_app.
      * destruct P as (_ & -> & _).
        rewrite <- (startswith_app (banner ref ++ Json.nl) "") at 1.
        f_equal. clear. induction (banner ref ++ Json.nl) as [|c x IH];
          cbn; [reflexivity | now rewrite <- IH].
    + exact Herr.
    + intros ->. reflexivity.
    + intros tls Hres Hout. now rewrite (run_completes _ _ _ _ Hres Hout).
Qed.

Lemma C9_argument_count_witness :
  exit_code (fst (run ["matrix.py"] online)) = 1
  /\ stdout (snd (run ["matrix.py"; "a"; "b"] online)) = ""
  /\ exit_code (fst (run ["matrix.py"; "master"] online)) = 0
  /\ stderr (snd (run ["matrix.py"; "master"] online)) = ""
  /\ stderr (snd (run ["matrix.py"; "master"] malformed_tags))
     = traceback malformed_tags ValueError.
Proof.
  split; [|split; [|split; [|split]]].
  - apply (proj1 (C9_argument_count "matrix.py" [] online)). cbn. lia.
  - apply (proj1 (C9_argument_count "matrix.py" ["a"; "b"] online)). cbn. lia.
  - apply (proj2 (C9_argument_count "matrix.py" ["master"] online)
             "master" eq_refl).
    vm_compute. reflexivity.
  - exact (proj1 (proj2 (proj2 (C9_argument_count "matrix.py" ["master"]
                                  online) "master" eq_refl))).
  - exact (proj1 (proj2 (proj2 (C9_argument_count "matrix.py" ["master"]
                                  malformed_tags) "master" eq_refl))).
Defined.

(** The report of the exception that ends a run is on standard error. *)
Example traceback_on_stderr :
  stderr (snd (run ["matrix.py"; "master"] malformed_tags))
  = "Traceback (most recent call last):" ++ Json.nl
    ++ "json.decoder.JSONDecodeError" ++ Json.nl.
Proof. vm_compute. reflexivity. Qed.

(** ** No tag with [openssl-] (claim C10) *)

Lemma scan_tags_none (tags : list json) (latest_tag : string) :
  Forall (fun tag =>
            exists members name,
              tag = JObj members
              /\ members_get "name" members = Some (JStr name)
              /\ PyStr.contains "openssl-" name = false) tags ->
  scan_tags tags latest_tag = Ok latest_tag.
Proof.
  induction 1 as [|tag tags (members & name & -> & Hn & Hc) _ IH].
  - reflexivity.
  - cbn [scan_tags subscript_name]. rewrite Hn. cbn [rbind openssl_in].
    now rewrite Hc.
Qed.

(** C10: when the request succeeds and the body is a JSON array of tag
    objects none of whose names contains [openssl-], a call that is not
    answered from the cache returns [OPENSSL_VERSION=] with nothing
    after the equals sign, which is not the sentinel. *)
Theorem C10_empty_version w k s tags :
  cache_get k (openssl_cache s) = None ->
  openssl_tags w (count_url openssl_url (requests s))
  = TagsResponse (Ok (JArr tags)) ->
  Forall (fun tag =>
            exists members name,
              tag = JObj members
              /\ members_get "name" members = Some (JStr name)
              /\ PyStr.contains "openssl-" name = false) tags ->
  fst (determine_latest_openssl w k s) = Ok "OPENSSL_VERSION="
  /\ fst (determine_latest_openssl w k s)
     <> Ok "OPENSSL_VERSION=failed_to_detect".
Proof.
  intros Hmiss Hreply Htags.
  assert (E : fst (determine_latest_openssl w k s) = Ok "OPENSSL_VERSION=").
  { rewrite (openssl_miss _ _ _ Hmiss), Hreply. cbv zeta.
    unfold openssl_outcome, latest_openssl_of. cbn [rbind iterate].
    now rewrite (scan_tags_none _ _ Htags). }
  split; [exact E | rewrite E; discriminate].
Qed.

Lemma C10_empty_version_witness :
  fst (determine_latest_openssl no_openssl_tags "OPENSSL_VERSION=latest" initial)
  = Ok "OPENSSL_VERSION=".
Proof.
  apply (C10_empty_version no_openssl_tags "OPENSSL_VERSION=latest" initial
           old_tags).
  - reflexivity.
  - reflexivity.
  - repeat constructor.
    + exists [("name", JStr "OpenSSL_1_1_1w")], "OpenSSL_1_1_1w".
      repeat split.
    + exists [("name", JStr "OpenSSL_1_0_2u"); ("node_id", JStr "y")],
        "OpenSSL_1_0_2u".
      repeat split.
Defined.

(** * Further properties of the script *)

(** ** The macOS leg and the shape of the whole matrix *)

(** X1: in every run that completes, the matrix ends with the one macOS
    entry ([osx], [clang], no flags, named
    [<macos os>, clang, no features]) and every entry before it belongs
    to the Linux target, whatever the branch. *)
Theorem X1_macos_entry prog ref w :
  fst (run [prog; ref] w) = Ok tt ->
  exists front,
    matrix (snd (run [prog; ref] w))
    = (front
       ++ [entry (macos_os ref ++ ", clang, no features") (macos_os ref)
                 "osx" "clang" None []])%list
    /\ Forall (fun d => str_item "TARGET" d = "linux-glibc"
                        /\ (str_item "CC" d = "gcc" \/ str_item "CC" d = "clang"))
              front
    /\ length front = (if PyStr.contains "haproxy-" ref then 16 else 20).
Proof.
  intros Hok. destruct (run_ok _ _ _ Hok) as (tls & Hres & _ & Hm & _).
  exists (map to_dict
            (leg_entries (linux_os ref) "linux-glibc" "gcc" tls
             ++ leg_entries (linux_os ref) "linux-glibc" "clang" tls)).
  split; [|split].
  - rewrite Hm. unfold matrix_entries. now rewrite app_assoc, map_app.
  - apply Forall_to_dict, Forall_app. unfold leg_entries.
    split; apply Forall_app; split;
      try (repeat (constructor; [split; [reflexivity | auto]|]); constructor);
      apply Forall_map, Forall_forall; intros mr _; split; auto.
  - fold (stable ref).
    destruct (resolution_shape _ _ _ Hres)
      as [(-> & ->)|(-> & vo & vl & _ & ->)]; reflexivity.
Qed.

Lemma X1_macos_entry_witness :
  exists front,
    matrix (snd (run ["matrix.py"; "master"] online))
    = (front
       ++ [entry "macos-latest, clang, no features" "macos-latest"
                 "osx" "clang" None []])%list
    /\ length front = 20.
Proof.
  destruct (X1_macos_entry "matrix.py" "master" online) as (front & H1 & _ & H3).
  - vm_compute. reflexivity.
  - exists front. split; [exact H1 | exact H3].
Defined.

(** ** Stable branches *)

(** X2: on a stable branch (the ref name contains [haproxy-]) the run
    sends no request and builds the same matrix and the same standard
    output in every world; it raises nothing unless the output file is
    asked for and cannot be opened. *)
Theorem X2_stable_run prog ref w w' :
  PyStr.contains "haproxy-" ref = true ->
  requests (snd (run [prog; ref] w)) = []
  /\ matrix (snd (run [prog; ref] w)) = matrix (snd (run [prog; ref] w'))
  /\ stdout (snd (run [prog; ref] w)) = stdout (snd (run [prog; ref] w'))
  /\ length (matrix (snd (run [prog; ref] w))) = 17
  /\ fst (run [prog; ref] w) = (if output_ok w then Ok tt else Raise OSError).
Proof.
  intros Hst.
  destruct (run_spec prog ref w) as (Hrq & _ & P).
  destruct (run_spec prog ref w') as (_ & _ & P').
  unfold resolution, run_requests, stable in *. rewrite Hst in *.
  destruct P as (Pr & Pm & Pout & _), P' as (_ & Pm' & Pout' & _).
  rewrite Hrq, Pm, Pm', Pout, Pout', Pr. repeat split.
Qed.

Lemma X2_stable_run_witness :
  matrix (snd (run ["matrix.py"; "haproxy-2.8"] offline))
  = matrix (snd (run ["matrix.py"; "haproxy-2.8"] online))
  /\ fst (run ["matrix.py"; "haproxy-2.8"] read_only) = Raise OSError.
Proof.
  split.
  - exact (proj1 (proj2 (X2_stable_run "matrix.py" "haproxy-2.8"
                           offline online eq_refl))).
  - exact (proj2 (proj2 (proj2 (proj2
             (X2_stable_run "matrix.py" "haproxy-2.8" read_only offline
                eq_refl))))).
Defined.

(** ** The line for the CI orchestrator *)

Lemma compact_list (level : nat) (l : list string) :
  Json.iterencode None false level (PList (map PStr l))
  = Compact.list_text (map Pretty.quoted l).
Proof.
  destruct l as [|x l]; [reflexivity|].
  unfold Compact.list_text. cbn [Json.iterencode map].
  rewrite !map_map. reflexivity.
Qed.

Lemma compact_entry (level : nat) (e : MatrixEntry) :
  Json.iterencode None false level (to_dict e) = Compact.entry_text e.
Proof.
  destruct e as [n o t c ssl fl]. unfold Compact.entry_text.
  cbn [e_CC e_FLAGS e_TARGET e_name e_os e_ssl].
  rewrite <- (compact_list (S level)).
  destruct ssl as [v|]; reflexivity.
Qed.

Lemma include_dumps (entries : list MatrixEntry) :
  Json.dumps None false (PDict [("include", PList (map to_dict entries))])
  = Compact.include_text entries.
Proof.
  unfold Compact.include_text, Compact.list_text, Pretty.member.
  destruct entries as [|e entries]; [reflexivity|].
  unfold Json.dumps.
  cbn [Json.iterencode map Json.encode_item fst snd PyStr.join].
  rewrite !map_map.
  rewrite (map_ext _ _ (fun x => compact_entry 2 x)), (compact_entry 2).
  reflexivity.
Qed.

(** X3: the output file is touched only by a run that completes with
    [GITHUB_OUTPUT] set: such a run appends to that path exactly one
    line, [matrix=] followed by the compact JSON object
    [{"include": [...]}] of the same entries as printed, the keys of
    each entry in the order name, os, TARGET, CC, ssl, FLAGS.  Without
    the variable, or when the run raises, nothing is appended. *)
Theorem X3_output_file prog ref w :
  (GITHUB_OUTPUT w = None -> output_file (snd (run [prog; ref] w)) = [])
  /\ (fst (run [prog; ref] w) <> Ok tt ->
      output_file (snd (run [prog; ref] w)) = [])
  /\ (forall path,
        GITHUB_OUTPUT w = Some path ->
        fst (run [prog; ref] w) = Ok tt ->
        exists entries,
          matrix (snd (run [prog; ref] w)) = map to_dict entries
          /\ output_file (snd (run [prog; ref] w))
             = [(path, "matrix=" ++ Compact.include_text entries ++ Json.nl)]).
Proof.
  destruct (run_spec prog ref w) as (_ & _ & P).
  destruct (resolution w ref) as [tls|e].
  - destruct P as (Pr & Pm & _ & Pf). rewrite Pr, Pf. unfold written, output_ok.
    split; [|split].
    + now intros ->.
    + destruct (GITHUB_OUTPUT w); [destruct (open_succeeds w)|];
        intros H; try reflexivity; now contradiction H.
    + intros path -> Hok. exists (matrix_entries ref tls).
      split; [exact Pm|].
      destruct (open_succeeds w); [|discriminate Hok].
      unfold output_line. now rewrite include_dumps.
  - destruct P as (Pr & _ & Pf). rewrite Pr, Pf.
    split; [|split]; try reflexivity. intros path _ H. discriminate H.
Qed.

Lemma X3_output_file_witness :
  exists entries,
    matrix (snd (run ["matrix.py"; "master"] in_ci)) = map to_dict entries
    /\ output_file (snd (run ["matrix.py"; "master"] in_ci))
       = [("/tmp/github_output",
           "matrix=" ++ Compact.include_text entries ++ Json.nl)].
Proof.
  apply (proj2 (proj2 (X3_output_file "matrix.py" "master" in_ci))
           "/tmp/github_output" eq_refl).
  vm_compute. reflexivity.
Defined.

(** X4: a run with one argument never prints part of the JSON.  Either
    a resolver raised, and standard output holds the banner alone and
    the output file is untouched; or the matrix is complete and
    standard output holds the banner and the whole pretty-printed
    array, and then the only exception left is the failure to open the
    output file. *)
Theorem X4_all_or_nothing prog ref w :
  (stdout (snd (run [prog; ref] w)) = banner ref ++ Json.nl
   /\ output_file (snd (run [prog; ref] w)) = []
   /\ exists e, fst (run [prog; ref] w) = Raise e)
  \/ (exists entries,
        matrix (snd (run [prog; ref] w)) = map to_dict entries
        /\ stdout (snd (run [prog; ref] w))
           = banner ref ++ Json.nl ++ Pretty.matrix_text entries ++ Json.nl
        /\ (fst (run [prog; ref] w) = Ok tt
            \/ (fst (run [prog; ref] w) = Raise OSError
                /\ output_ok w = false
                /\ output_file (snd (run [prog; ref] w)) = []))).
Proof.
  destruct (run_spec prog ref w) as (_ & _ & P).
  destruct (resolution w ref) as [tls|e].
  - right. destruct P as (Pr & Pm & Pout & Pf).
    exists (matrix_entries ref tls). split; [exact Pm|]. split.
    + rewrite Pout. unfold stdout_text. now rewrite matrix_dumps.
    + rewrite Pr, Pf. unfold written, output_ok.
      destruct (GITHUB_OUTPUT w); [destruct (open_succeeds w)|]; auto.
  - left. destruct P as (Pr & Pout & Pf). eauto.
Qed.

(** ** The characters of the JSON texts *)

Lemma all_chars_app P (a b : string) :
  all_chars P (a ++ b) = all_chars P a && all_chars P b.
Proof.
  induction a as [|c a IH]; cbn; [reflexivity|].
  now rewrite IH, andb_assoc.
Qed.

Lemma all_chars_weaken (P Q : ascii -> bool) (s : string) :
  (forall c, P c = true -> Q c = true) ->
  all_chars P s = true -> all_chars Q s = true.
Proof.
  intros H. induction s as [|c s IH]; cbn; [reflexivity|].
  intros E. apply andb_true_iff in E. destruct E as (E1 & E2).
  now rewrite (H _ E1), IH.
Qed.

Lemma all_chars_join P (sep : string) (l : list string) :
  all_chars P sep = true ->
  Forall (fun x => all_chars P x = true) l ->
  all_chars P (PyStr.join sep l) = true.
Proof.
  intros Hsep H. induction H as [|x l Hx Hl IH]; [reflexivity|].
  destruct l as [|y l]; [exact Hx|].
  change (PyStr.join sep (x :: y :: l)) with (x ++ sep ++ PyStr.join sep (y :: l)).
  now rewrite !all_chars_app, Hx, Hsep, IH.
Qed.

Lemma all_chars_repeat P (s : string) (n : nat) :
  all_chars P s = true -> all_chars P (PyStr.repeat_str s n) = true.
Proof.
  intros H. induction n as [|n IH]; cbn; [reflexivity|].
  now rewrite all_chars_app, H, IH.
Qed.

(** Whatever the character, its escape is printable ASCII. *)
Lemma escape_char_printable (c : ascii) :
  all_chars printable (Json.escape_char c) = true.
Proof. destruct c as [[] [] [] [] [] [] [] []]; reflexivity. Qed.

Lemma encode_str_printable (s : string) :
  all_chars printable (Json.encode_str s) = true.
Proof.
  unfold Json.encode_str. rewrite !all_chars_app.
  assert (E : all_chars printable (Json.escape s) = true).
  { induction s as [|c s IH]; cbn [Json.escape]; [reflexivity|].
    now rewrite all_chars_app, escape_char_printable, IH. }
  now rewrite E.
Qed.

(** Induction on the values of the matrix, through their lists. *)
Lemma pyval_induction (P : pyval -> Prop) :
  (forall s, P (PStr s)) ->
  (forall l, Forall P l -> P (PList l)) ->
  (forall d, Forall (fun kv => P (snd kv)) d -> P (PDict d)) ->
  forall v, P v.
Proof.
  intros Hs Hl Hd.
  fix IH 1. intros [s|l|d].
  - apply Hs.
  - apply Hl. induction l as [|x l IHl]; constructor; [apply IH | exact IHl].
  - apply Hd. induction d as [|[k x] d IHd]; constructor; [apply IH | exact IHd].
Qed.

Lemma newline_indent_chars ind level :
  all_chars (match ind with
             | Some _ => printable_or_newline
             | None => printable
             end) (Json.newline_indent ind level) = true.
Proof.
  destruct ind as [n|]; [|reflexivity].
  unfold Json.newline_indent. rewrite all_chars_app.
  apply andb_true_iff. split; [reflexivity|].
  apply all_chars_repeat, all_chars_repeat. reflexivity.
Qed.

Lemma iterencode_chars ind sort_keys (v : pyval) :
  forall level,
    all_chars (match ind with
               | Some _ => printable_or_newline
               | None => printable
               end) (Json.iterencode ind sort_keys level v) = true.
Proof.
  set (Q := match ind with
            | Some _ => printable_or_newline
            | None => printable
            end).
  assert (HQ : forall s, all_chars printable s = true -> all_chars Q s = true).
  { intros s. apply all_chars_weaken. intros c Hc. unfold Q.
    destruct ind; [|exact Hc]. unfold printable_or_newline. now rewrite Hc. }
  assert (Hnl : forall level,
             all_chars Q (Json.newline_indent ind level) = true)
    by (intros level; apply newline_indent_chars).
  assert (Hsep : forall level,
             all_chars Q (Json.item_separator ind
                          ++ Json.newline_indent ind level) = true).
  { intros level. rewrite all_chars_app, Hnl.
    unfold Json.item_separator, Q. destruct ind; reflexivity. }
  induction v as [s|l IH|d IH] using pyval_induction; intros level.
  - apply HQ, encode_str_printable.
  - destruct l as [|x l]; [now apply HQ|].
    cbn [Json.iterencode]. rewrite !all_chars_app.
    rewrite !Hnl.
    rewrite all_chars_join;
      [now rewrite (HQ "[" eq_refl), (HQ "]" eq_refl) | apply Hsep |].
    apply Forall_map. revert IH. apply Forall_impl. intros a Ha. apply Ha.
  - destruct d as [|kv d]; [now apply HQ|].
    cbn [Json.iterencode]. rewrite !all_chars_app.
    rewrite !Hnl.
    rewrite all_chars_join;
      [now rewrite (HQ "{" eq_refl), (HQ "}" eq_refl) | apply Hsep |].
    apply Forall_map.
    assert (Hitems :
      Forall (fun kv => all_chars Q (Json.encode_item kv) = true)
        (map (fun kv => match kv with
                        | (k, x) => (k, Json.iterencode ind sort_keys (S level) x)
                        end) (kv :: d))).
    { apply Forall_map. revert IH. apply Forall_impl. intros [k x] Hx.
      unfold Json.encode_item, Json.key_separator. cbn [fst snd] in *.
      rewrite !all_chars_app, (HQ _ (encode_str_printable k)), Hx.
      now rewrite (HQ ": " eq_refl). }
    destruct sort_keys; [|exact Hitems].
    eapply Permutation_Forall; [apply sorted_items_permutation | exact Hitems].
Qed.

(** X5: whatever the strings of the matrix (a resolved version comes
    from the network), the JSON texts are ASCII: the compact form is
    made of printable characters only, so it holds no newline and the
    text appended to the output file is one line; the indented form is
    made of printable characters and newlines. *)
Theorem X5_json_is_ascii (v : pyval) :
  all_chars printable (Json.dumps None false v) = true
  /\ PyStr.contains Json.nl (Json.dumps None false v) = false
  /\ (forall n sort_keys,
        all_chars printable_or_newline (Json.dumps (Some n) sort_keys v) = true).
Proof.
  assert (H : all_chars printable (Json.dumps None false v) = true)
    by apply (iterencode_chars None false v 0).
  split; [exact H|]. split.
  - revert H. generalize (Json.dumps None false v). intros s.
    induction s as [|c s IH]; [reflexivity|].
    cbn [all_chars]. intros E. apply andb_true_iff in E. destruct E as (E1 & E2).
    cbn [PyStr.contains PyStr.startswith Json.nl]. rewrite (IH E2).
    destruct (Ascii.eqb_spec "010" c) as [<-|]; [discriminate E1 | reflexivity].
  - intros n sort_keys. apply (iterencode_chars (Some n) sort_keys v 0).
Qed.

(** ** The two caches *)

Lemma cache_get_head k v c : cache_get k ((k, v) :: c) = Some v.
Proof. cbn. now rewrite String.eqb_refl. Qed.

Lemma count_url_snoc url l r :
  count_url url (l ++ [r])
  = count_url url l + (if String.eqb (url_of r) url then 1 else 0).
Proof.
  unfold count_url. rewrite filter_app, length_app. cbn.
  now destruct (String.eqb (url_of r) url).
Qed.

(** X6: a resolver call that returns is remembered: the same call made
    again right after it returns the same string and sends no request,
    whether the first call was answered by the server, by the sentinel
    of a failed request, or by the cache. *)
Theorem X6_memo_round_trip w k v s :
  (fst (determine_latest_openssl w k s) = Ok v ->
   fst (determine_latest_openssl w k (snd (determine_latest_openssl w k s)))
   = Ok v
   /\ requests (snd (determine_latest_openssl w k
                       (snd (determine_latest_openssl w k s))))
      = requests (snd (determine_latest_openssl w k s)))
  /\ (fst (determine_latest_libressl w k s) = Ok v ->
      fst (determine_latest_libressl w k (snd (determine_latest_libressl w k s)))
      = Ok v
      /\ requests (snd (determine_latest_libressl w k
                          (snd (determine_latest_libressl w k s))))
         = requests (snd (determine_latest_libressl w k s))).
Proof.
  split; intros H.
  - assert (C : cache_get k (openssl_cache (snd (determine_latest_openssl w k s)))
                = Some v).
    { destruct (cache_get k (openssl_cache s)) as [v'|] eqn:E.
      - rewrite (openssl_hit _ _ _ _ E) in *. cbn in H |- *.
        injection H as ->. now rewrite String.eqb_refl.
      - rewrite (openssl_miss _ _ _ E) in *. cbv zeta in *.
        destruct (openssl_outcome _) as [v'|e]; [|discriminate H].
        cbn in H |- *. injection H as ->. now rewrite String.eqb_refl. }
    now rewrite (openssl_hit _ _ _ _ C).
  - assert (C : cache_get k (libressl_cache (snd (determine_latest_libressl w k s)))
                = Some v).
    { destruct (cache_get k (libressl_cache s)) as [v'|] eqn:E.
      - rewrite (libressl_hit _ _ _ _ E) in *. cbn in H |- *.
        injection H as ->. now rewrite String.eqb_refl.
      - rewrite (libressl_miss _ _ _ E) in *. cbv zeta in *.
        destruct (libressl_outcome _) as [v'|e]; [|discriminate H].
        cbn in H |- *. injection H as ->. now rewrite String.eqb_refl. }
    now rewrite (libressl_hit _ _ _ _ C).
Qed.

Lemma X6_memo_round_trip_witness :
  fst (determine_latest_openssl recovering "OPENSSL_VERSION=latest"
         (snd (determine_latest_openssl recovering "OPENSSL_VERSION=latest"
                 initial)))
  = Ok "OPENSSL_VERSION=failed_to_detect".
Proof.
  apply (proj1 (X6_memo_round_trip recovering "OPENSSL_VERSION=latest"
                  "OPENSSL_VERSION=failed_to_detect" initial)).
  reflexivity.
Defined.

(** X7: an exception is not remembered.  When a resolver raises (the
    request went through and the body could not be used), its cache is
    as before and one request has been sent; the same call made again
    asks the server again and returns what the next reply gives. *)
Theorem X7_exception_not_cached w k e s :
  (fst (determine_latest_openssl w k s) = Raise e ->
   openssl_cache (snd (determine_latest_openssl w k s)) = openssl_cache s
   /\ requests (snd (determine_latest_openssl w k s))
      = (requests s ++ [openssl_request w])%list
   /\ fst (determine_latest_openssl w k (snd (determine_latest_openssl w k s)))
      = openssl_outcome
          (openssl_tags w (S (count_url openssl_url (requests s)))))
  /\ (fst (determine_latest_libressl w k s) = Raise e ->
      libressl_cache (snd (determine_latest_libressl w k s)) = libressl_cache s
      /\ requests (snd (determine_latest_libressl w k s))
         = (requests s ++ [Get libressl_url []])%list
      /\ fst (determine_latest_libressl w k
                (snd (determine_latest_libressl w k s)))
         = libressl_outcome
             (libressl_listing w (S (count_url libressl_url (requests s))))).
Proof.
  split; intros H.
  - destruct (cache_get k (openssl_cache s)) as [v'|] eqn:E.
    { rewrite (openssl_hit _ _ _ _ E) in H. discriminate H. }
    rewrite (openssl_miss _ _ _ E) in *. cbv zeta in *.
    destruct (openssl_outcome (openssl_tags w (count_url openssl_url (requests s))))
      as [v'|e']; [discriminate H|].
    cbn [fst snd]. split; [reflexivity|]. split; [reflexivity|].
    rewrite openssl_miss by exact E. cbv zeta.
    cbn [requests set_requests]. rewrite count_url_snoc. cbn [url_of openssl_request].
    rewrite String.eqb_refl, Nat.add_1_r.
    now destruct (openssl_outcome _).
  - destruct (cache_get k (libressl_cache s)) as [v'|] eqn:E.
    { rewrite (libressl_hit _ _ _ _ E) in H. discriminate H. }
    rewrite (libressl_miss _ _ _ E) in *. cbv zeta in *.
    destruct (libressl_outcome
                (libressl_listing w (count_url libressl_url (requests s))))
      as [v'|e']; [discriminate H|].
    cbn [fst snd]. split; [reflexivity|]. split; [reflexivity|].
    rewrite libressl_miss by exact E. cbv zeta.
    cbn [requests set_requests]. rewrite count_url_snoc. cbn [url_of].
    rewrite String.eqb_refl, Nat.add_1_r.
    now destruct (libressl_outcome _).
Qed.

Lemma X7_exception_not_cached_witness :
  fst (determine_latest_openssl garbled_once "OPENSSL_VERSION=latest"
         (snd (determine_latest_openssl garbled_once "OPENSSL_VERSION=latest"
                 initial)))
  = Ok "OPENSSL_VERSION=3.2.0".
Proof.
  destruct (proj1 (X7_exception_not_cached garbled_once
                     "OPENSSL_VERSION=latest" ValueError initial) eq_refl)
    as (_ & _ & H).
  exact H.
Defined.

Lemma cache_get_none k c : cache_get k c = None -> ~ In k (map fst c).
Proof.
  induction c as [|[k' v'] c IH]; cbn; [tauto|].
  destruct (String.eqb_spec k' k) as [->|N]; [discriminate|].
  intros H [E|E]; [congruence | now apply IH].
Qed.

Lemma cache_remove_keys k c x :
  In x (map fst (cache_remove k c)) -> In x (map fst c).
Proof.
  induction c as [|[k' v'] c IH]; cbn; [tauto|].
  destruct (String.eqb k' k); cbn; [tauto|]. intros [E|E]; auto.
Qed.

Lemma cache_remove_length k v c :
  cache_get k c = Some v -> S (length (cache_remove k c)) = length c.
Proof.
  induction c as [|[k' v'] c IH]; cbn; [discriminate|].
  destruct (String.eqb k' k); [reflexivity|].
  intros H. cbn. now rewrite IH.
Qed.

Lemma cache_remove_nodup k c :
  NoDup (map fst c) ->
  NoDup (map fst (cache_remove k c)) /\ ~ In k (map fst (cache_remove k c)).
Proof.
  induction c as [|[k' v'] c IH]; cbn; intros H.
  - split; [constructor | tauto].
  - inversion H as [|? ? Hn Hc]; subst.
    destruct (String.eqb_spec k' k) as [->|N]; [now split|].
    destruct (IH Hc) as (I1 & I2). cbn. split.
    + constructor; [|exact I1]. intros E. apply Hn. eapply cache_remove_keys, E.
    + intros [E|E]; [congruence | now apply I2].
Qed.

Lemma firstn_keys_nodup n (c : list (string * string)) :
  NoDup (map fst c) -> NoDup (map fst (firstn n c)).
Proof.
  revert c. induction n as [|n IH]; intros [|kv c] H; cbn; try constructor.
  - inversion H as [|? ? Hn Hc]; subst. intros E. apply Hn.
    rewrite <- (firstn_skipn n c), map_app. apply in_or_app. now left.
  - inversion H; subst. now apply IH.
Qed.

(** The invariant of a cache, kept by the update both after a hit and
    after a miss. *)
Lemma lru_update_invariant k v c :
  length c <= 5 -> NoDup (map fst c) ->
  (cache_get k c = Some v ->
   length ((k, v) :: cache_remove k c) <= 5
   /\ NoDup (map fst ((k, v) :: cache_remove k c)))
  /\ (cache_get k c = None ->
      length (firstn 5 ((k, v) :: c)) <= 5
      /\ NoDup (map fst (firstn 5 ((k, v) :: c)))).
Proof.
  intros Hlen Hnd. split; intros E.
  - split.
    + cbn [length]. now rewrite (cache_remove_length _ _ _ E).
    + cbn [map fst]. destruct (cache_remove_nodup k c Hnd). now constructor.
  - split; [apply firstn_le_length|].
    apply firstn_keys_nodup. cbn [map fst]. constructor; [|exact Hnd].
    now apply cache_get_none.
Qed.

(** X8: each cache keeps at most five markers, all distinct, whatever
    the calls: a call leaves a cache that had at most five distinct keys
    with at most five distinct keys.  When a sixth marker is resolved,
    the one used least recently (the last of the list) is dropped. *)
Theorem X8_cache_bound w k s :
  length (openssl_cache s) <= 5 ->
  NoDup (map fst (openssl_cache s)) ->
  length (openssl_cache (snd (determine_latest_openssl w k s))) <= 5
  /\ NoDup (map fst (openssl_cache (snd (determine_latest_openssl w k s))))
  /\ (forall v,
        length (openssl_cache s) = 5 ->
        cache_get k (openssl_cache s) = None ->
        fst (determine_latest_openssl w k s) = Ok v ->
        openssl_cache (snd (determine_latest_openssl w k s))
        = (k, v) :: removelast (openssl_cache s)).
Proof.
  intros Hlen Hnd.
  destruct (cache_get k (openssl_cache s)) as [v'|] eqn:E.
  - rewrite (openssl_hit _ _ _ _ E). cbn [snd openssl_cache set_openssl_cache].
    destruct (proj1 (lru_update_invariant k v' _ Hlen Hnd) E) as (A & B).
    repeat split; try assumption. intros v _ H. discriminate H.
  - rewrite (openssl_miss _ _ _ E). cbv zeta.
    destruct (openssl_outcome _) as [v'|e];
      cbn [fst snd openssl_cache set_openssl_cache set_requests].
    + destruct (proj2 (lru_update_invariant k v' _ Hlen Hnd) E) as (A & B).
      repeat split; try assumption.
      intros v H5 _ H. injection H as ->.
      rewrite removelast_firstn_len, H5. reflexivity.
    + repeat split; try assumption. intros v _ _ H. discriminate H.
Qed.

Lemma X8_cache_bound_witness :
  length (openssl_cache full_cache) = 5
  /\ cache_get "OPENSSL_VERSION=latest" (openssl_cache full_cache) = None
  /\ length (openssl_cache
               (snd (determine_latest_openssl online "OPENSSL_VERSION=latest"
                       full_cache))) <= 5
  /\ openssl_cache
       (snd (determine_latest_openssl online "OPENSSL_VERSION=latest"
               full_cache))
     = [("OPENSSL_VERSION=latest", "OPENSSL_VERSION=3.2.0");
        ("k5", "v5"); ("k4", "v4"); ("k3", "v3"); ("k2", "v2")].
Proof.
  assert (Hlen : length (openssl_cache full_cache) <= 5) by (cbn; lia).
  assert (Hnd : NoDup (map fst (openssl_cache full_cache))).
  { cbn.
    repeat (constructor;
            [cbn; intros H;
             repeat (destruct H as [H|H]; [discriminate H|]); exact H|]).
    constructor. }
  destruct (X8_cache_bound online "OPENSSL_VERSION=latest" full_cache Hlen Hnd)
    as (A & _ & C).
  split; [reflexivity|]. split; [reflexivity|]. split; [exact A|].
  exact (C "OPENSSL_VERSION=3.2.0" eq_refl eq_refl eq_refl).
Defined.

(** ** The latest OpenSSL tag *)

Lemma ascii_compare_refl (x : ascii) : Ascii.compare x x = Eq.
Proof. apply N.compare_refl. Qed.

Lemma ascii_compare_lt_trans (x y z : ascii) :
  Ascii.compare x y = Lt -> Ascii.compare y z = Lt -> Ascii.compare x z = Lt.
Proof.
  unfold Ascii.compare. rewrite !N.compare_lt_iff. apply N.lt_trans.
Qed.

Lemma string_compare_lt_trans (a b c : string) :
  String.compare a b = Lt -> String.compare b c = Lt -> String.compare a c = Lt.
Proof.
  revert b c. induction a as [|x a IH]; intros [|y b] [|z c]; cbn;
    try discriminate; try reflexivity.
  destruct (Ascii.compare x y) eqn:E1; try discriminate;
    destruct (Ascii.compare y z) eqn:E2; try discriminate; intros H1 H2.
  - apply Ascii.compare_eq_iff in E1, E2. subst.
    rewrite ascii_compare_refl. now apply (IH b c).
  - apply Ascii.compare_eq_iff in E1. subst. now rewrite E2.
  - apply Ascii.compare_eq_iff in E2. subst. now rewrite E1.
  - now rewrite (ascii_compare_lt_trans _ _ _ E1 E2).
Qed.

Lemma gt_trans (a b c : string) :
  PyStr.gt a b = true -> PyStr.gt b c = true -> PyStr.gt a c = true.
Proof.
  unfold PyStr.gt, String.ltb.
  destruct (String.compare b a) eqn:E1; try discriminate.
  destruct (String.compare c b) eqn:E2; try discriminate.
  now rewrite (string_compare_lt_trans _ _ _ E2 E1).
Qed.

Lemma gt_irrefl (a : string) : PyStr.gt a a = false.
Proof.
  unfold PyStr.gt, String.ltb.
  assert (E : String.compare a a = Eq).
  { induction a as [|x a IH]; cbn; [reflexivity|].
    now rewrite ascii_compare_refl. }
  now rewrite E.
Qed.

Lemma gt_false_cases (a b : string) :
  PyStr.gt a b = false -> a = b \/ PyStr.gt b a = true.
Proof.
  unfold PyStr.gt, String.ltb. rewrite (String.compare_antisym a b).
  destruct (String.compare b a) eqn:E; cbn; try discriminate; auto.
  apply String.compare_eq_iff in E. auto.
Qed.

Lemma gt_empty (a : string) : a <> "" -> PyStr.gt a "" = true.
Proof. destruct a; [congruence | reflexivity]. Qed.

(** One turn of the loop of lines 53-57 on a well-formed tag. *)
Lemma scan_tags_cons tag name tags latest_tag :
  tag_named tag name ->
  scan_tags (tag :: tags) latest_tag
  = scan_tags tags
      (if is_openssl_tag name && PyStr.gt name latest_tag
       then name else latest_tag).
Proof.
  intros (members & -> & Hn). cbn [scan_tags subscript_name]. rewrite Hn.
  cbn [rbind openssl_in newer]. unfold is_openssl_tag.
  destruct (PyStr.contains "openssl-" name); [|reflexivity].
  cbn [rbind andb]. reflexivity.
Qed.

(** The loop over well-formed tags returns a string no listed OpenSSL
    tag is greater than: the start value, or one of the listed OpenSSL
    tags. *)
Lemma scan_tags_maximum tags names :
  Forall2 tag_named tags names ->
  forall latest_tag,
  exists m,
    scan_tags tags latest_tag = Ok m
    /\ (m = latest_tag \/ (In m names /\ is_openssl_tag m = true))
    /\ PyStr.gt latest_tag m = false
    /\ Forall (fun n => is_openssl_tag n = true -> PyStr.gt n m = false) names.
Proof.
  induction 1 as [|tag name tags names Ht _ IH]; intros latest_tag.
  - exists latest_tag. repeat split; auto using gt_irrefl.
  - rewrite (scan_tags_cons _ _ _ _ Ht).
    destruct (is_openssl_tag name) eqn:Eo; cbn [andb].
    + destruct (PyStr.gt name latest_tag) eqn:Eg.
      * destruct (IH name) as (m & Hm & Hin & Hle & Hall).
        exists m. split; [exact Hm|]. split; [|split].
        -- destruct Hin as [->|(Hin & Ho)]; right; cbn; auto.
        -- destruct (PyStr.gt latest_tag m) eqn:E; [|reflexivity].
           now rewrite (gt_trans _ _ _ Eg E) in Hle.
        -- constructor; [now intros _ | exact Hall].
      * destruct (IH latest_tag) as (m & Hm & Hin & Hle & Hall).
        exists m. split; [exact Hm|]. split; [|split].
        -- destruct Hin as [->|(Hin & Ho)]; [now left | right; cbn; auto].
        -- exact Hle.
        -- constructor; [intros _ | exact Hall].
           destruct (PyStr.gt name m) eqn:E; [|reflexivity].
           destruct (gt_false_cases _ _ Eg) as [->|G]; [congruence|].
           now rewrite (gt_trans _ _ _ G E) in Hle.
    + destruct (IH latest_tag) as (m & Hm & Hin & Hle & Hall).
      exists m. split; [exact Hm|]. split; [|split].
      * destruct Hin as [->|(Hin & Ho)]; [now left | right; cbn; auto].
      * exact Hle.
      * constructor; [intros E; congruence | exact Hall].
Qed.

(** X9: for a body that is an array of tag objects with string names,
    the resolver returns [OPENSSL_VERSION=] followed by the characters
    from index 8 on of a name [m] such that no listed name containing
    [openssl-] is greater than [m] as a string; [m] is one of those
    names when there is one, and the empty string otherwise.  When [m]
    starts with [openssl-], what follows the equals sign is the rest of
    [m]. *)
Theorem X9_latest_openssl_is_maximum tags names :
  Forall2 tag_named tags names ->
  exists m,
    latest_openssl_of (Ok (JArr tags))
    = Ok ("OPENSSL_VERSION=" ++ PyStr.slice_from 8 m)
    /\ Forall (fun n => is_openssl_tag n = true -> PyStr.gt n m = false) names
    /\ (Exists (fun n => is_openssl_tag n = true) names ->
        In m names /\ is_openssl_tag m = true)
    /\ (Forall (fun n => is_openssl_tag n = false) names -> m = "")
    /\ (forall v, m = "openssl-" ++ v ->
                  latest_openssl_of (Ok (JArr tags)) = Ok ("OPENSSL_VERSION=" ++ v)).
Proof.
  intros H.
  destruct (scan_tags_maximum _ _ H "") as (m & Hm & Hin & _ & Hall).
  assert (E : latest_openssl_of (Ok (JArr tags))
              = Ok ("OPENSSL_VERSION=" ++ PyStr.slice_from 8 m)).
  { unfold latest_openssl_of. cbn [rbind iterate]. now rewrite Hm. }
  exists m. split; [exact E|]. split; [exact Hall|]. split; [|split].
  - intros Hex. destruct Hin as [->|Hin]; [|exact Hin].
    exfalso. apply Exists_exists in Hex. destruct Hex as (n & Hn & Ho).
    rewrite Forall_forall in Hall. specialize (Hall n Hn Ho).
    rewrite gt_empty in Hall; [discriminate|].
    intros ->. discriminate Ho.
  - intros Hnone. destruct Hin as [->|(Hin & Ho)]; [reflexivity|].
    rewrite Forall_forall in Hnone. rewrite (Hnone m Hin) in Ho. discriminate.
  - intros v ->. exact E.
Qed.

Lemma X9_latest_openssl_is_maximum_witness :
  exists m,
    latest_openssl_of (Ok (JArr two_digit_tags))
    = Ok ("OPENSSL_VERSION=" ++ PyStr.slice_from 8 m)
    /\ Forall (fun n => is_openssl_tag n = true -> PyStr.gt n m = false)
              ["openssl-3.10.0"; "openssl-3.9.0"].
Proof.
  destruct (X9_latest_openssl_is_maximum two_digit_tags
              ["openssl-3.10.0"; "openssl-3.9.0"]) as (m & H1 & H2 & _).
  - repeat constructor.
    + exists [("name", JStr "openssl-3.10.0")]. now split.
    + exists [("name", JStr "openssl-3.9.0")]. now split.
  - exists m. now split.
Defined.

(** The string order is not the order of versions: here 3.9.0 wins
    over 3.10.0. *)
Example two_digit_latest :
  latest_openssl_of (Ok (JArr two_digit_tags)) = Ok "OPENSSL_VERSION=3.9.0".
Proof. reflexivity. Qed.

Lemma scan_tags_good_prefix good names :
  Forall2 tag_named good names ->
  forall latest_tag,
  exists latest_tag',
    forall tags,
      scan_tags (good ++ tags) latest_tag = scan_tags tags latest_tag'.
Proof.
  induction 1 as [|tag name good names Ht _ IH]; intros latest_tag.
  - now exists latest_tag.
  - destruct (IH (if is_openssl_tag name && PyStr.gt name latest_tag
                  then name else latest_tag)) as (l' & Hl').
    exists l'. intros tags. cbn [app].
    now rewrite (scan_tags_cons _ _ _ _ Ht), Hl'.
Qed.

(** X10: a body that is not what the loop expects raises out of the
    resolver, nothing of it is caught.  After any number of well-formed
    tags, the first element that is not an object, or whose [name] is
    null, a boolean or a number, raises [TypeError], and the first
    object without [name] raises [KeyError]; a body that is null, a
    boolean, a number or a non-empty object raises [TypeError]. *)
Theorem X10_malformed_tags good names bad rest :
  Forall2 tag_named good names ->
  ((forall members, bad <> JObj members) ->
   latest_openssl_of (Ok (JArr (good ++ bad :: rest))) = Raise TypeError)
  /\ (forall members,
        bad = JObj members -> members_get "name" members = None ->
        latest_openssl_of (Ok (JArr (good ++ bad :: rest))) = Raise KeyError)
  /\ (forall members x,
        bad = JObj members -> members_get "name" members = Some x ->
        x = JNull \/ (exists b, x = JBool b) \/ (exists l, x = JNum l) ->
        latest_openssl_of (Ok (JArr (good ++ bad :: rest))) = Raise TypeError)
  /\ (forall body,
        body = JNull \/ (exists b, body = JBool b) \/ (exists l, body = JNum l)
        \/ (exists kv members, body = JObj (kv :: members)) ->
        latest_openssl_of (Ok body) = Raise TypeError).
Proof.
  intros H. unfold latest_openssl_of. cbn [rbind iterate].
  destruct (scan_tags_good_prefix _ _ H "") as (l' & Hl').
  rewrite Hl'. cbn [scan_tags].
  split; [|split; [|split]].
  - intros Hno. destruct bad; try reflexivity. now contradiction (Hno members).
  - intros members -> Hn. cbn [subscript_name]. now rewrite Hn.
  - intros members x -> Hn Hx. cbn [subscript_name]. rewrite Hn.
    destruct Hx as [->|[(b & ->)|(l & ->)]]; reflexivity.
  - intros body [->|[(b & ->)|[(l & ->)|(kv & members & ->)]]]; reflexivity.
Qed.

Lemma X10_malformed_tags_witness :
  latest_openssl_of
    (Ok (JArr (two_digit_tags ++ [JObj [("node_id", JStr "x")]])))
  = Raise KeyError.
Proof.
  apply (proj1 (proj2 (X10_malformed_tags two_digit_tags
                         ["openssl-3.10.0"; "openssl-3.9.0"]
                         (JObj [("node_id", JStr "x")]) []
                         ltac:(repeat constructor;
                               eexists; split; reflexivity)))
           [("node_id", JStr "x")]); reflexivity.
Defined.

(** ** The LibreSSL listing *)

Lemma match_here_libressl (s : string) :
  Re.match_here libressl_pattern s
  = if PyStr.startswith "libressl-" s then Some 9
    else if Re.match_atoms
              ([None] ++ Re.literal "tar" ++ [None] ++ Re.literal "gz"
               ++ [None] ++ Re.literal "asc") s
         then Some 11 else None.
Proof.
  assert (L : forall p s, Re.match_atoms (Re.literal p) s = PyStr.startswith p s).
  { induction p as [|a p IH]; intros [|b x]; cbn; try reflexivity.
    now rewrite IH. }
  unfold libressl_pattern. cbn [Re.match_here]. rewrite L.
  destruct (PyStr.startswith "libressl-" s); [reflexivity|].
  now destruct (Re.match_atoms _ s).
Qed.

Lemma split_from_nonempty skip (s : string) :
  1 <= length (Re.split_from libressl_pattern skip s).
Proof.
  revert skip. induction s as [|c s IH]; intros skip; cbn [Re.split_from].
  - cbn. lia.
  - destruct skip as [|k]; [|apply IH].
    destruct (Re.match_here libressl_pattern (String c s)) as [[|n]|];
      try (cbn [length]; lia);
      specialize (IH 0); destruct (Re.split_from libressl_pattern 0 s);
        cbn [length] in *; lia.
Qed.

Lemma split_has_two_pieces (d : string) :
  PyStr.contains "libressl-" d = true ->
  2 <= length (Re.split libressl_pattern d).
Proof.
  unfold Re.split. induction d as [|c d IH]; [discriminate|].
  intros H. cbn [Re.split_from]. rewrite match_here_libressl.
  cbn [PyStr.contains] in H.
  destruct (PyStr.startswith "libressl-" (String c d)).
  - pose proof (split_from_nonempty 8 d). cbn [length]. lia.
  - cbn [orb] in H. specialize (IH H).
    destruct (Re.match_atoms _ (String c d)).
    + pose proof (split_from_nonempty 10 d). cbn [length]. lia.
    + destruct (Re.split_from libressl_pattern 0 d); cbn [length] in *; lia.
Qed.

(** X11: the subscript [[1]] of line 72 is always in range: a line that
    contains [libressl-] is split in two pieces at least, so the loop
    over the listing never raises [IndexError]. *)
Theorem X11_no_index_error :
  (forall decoded_line,
     PyStr.contains "libressl-" decoded_line = true ->
     2 <= length (Re.split libressl_pattern decoded_line))
  /\ (forall lines l, scan_lines lines l <> Raise IndexError).
Proof.
  split; [exact split_has_two_pieces|].
  induction lines as [|[d|] lines IH]; intros l; cbn [scan_lines];
    try discriminate.
  destruct (PyStr.contains "libressl-" d) eqn:E; cbn [andb]; [|apply IH].
  destruct (PyStr.contains ".tar.gz.asc" d); [|apply IH].
  pose proof (split_has_two_pieces d E) as A.
  destruct (Re.split libressl_pattern d) as [|x [|y r]]; cbn [length] in A;
    try lia.
  cbn [nth_error]. apply IH.
Qed.

Lemma X11_no_index_error_witness :
  2 <= length (Re.split libressl_pattern "x.tar.gz.asc libressl-3.0").
Proof.
  apply (proj1 X11_no_index_error). reflexivity.
Defined.

(** One turn of the loop of lines 69-72 on a line that decodes. *)
Lemma scan_lines_cons decoded_line lines l :
  scan_lines (Some decoded_line :: lines) l
  = scan_lines lines
      (if is_signature_line decoded_line
       then Some (nth 1 (Re.split libressl_pattern decoded_line) "")
       else l).
Proof.
  cbn [scan_lines]. unfold is_signature_line.
  destruct (PyStr.contains "libressl-" decoded_line) eqn:E; cbn [andb];
    [|reflexivity].
  destruct (PyStr.contains ".tar.gz.asc" decoded_line); [|reflexivity].
  pose proof (split_has_two_pieces decoded_line E) as A.
  destruct (Re.split libressl_pattern decoded_line) as [|x [|y r]];
    cbn [length] in A; try lia.
  reflexivity.
Qed.

Lemma scan_lines_decodable (before : list string) :
  forall l, exists l',
    (forall rest,
       scan_lines (map Some before ++ rest)%list l = scan_lines rest l')
    /\ (l <> None -> l' <> None).
Proof.
  induction before as [|d before IH]; intros l.
  - exists l. now split.
  - destruct (IH (if is_signature_line d
                  then Some (nth 1 (Re.split libressl_pattern d) "")
                  else l)) as (l' & Hl' & Hsome).
    exists l'. split.
    + intros rest. cbn [map app]. now rewrite scan_lines_cons, Hl'.
    + intros Hl. apply Hsome. now destruct (is_signature_line d).
Qed.

Lemma scan_lines_no_signature (after : list string) l :
  Forall (fun d => is_signature_line d = false) after ->
  scan_lines (map Some after) l = Ok l.
Proof.
  induction 1 as [|d after Hd _ IH]; [reflexivity|].
  cbn [map]. now rewrite scan_lines_cons, Hd.
Qed.

(** X12: the last line that contains both [libressl-] and
    [.tar.gz.asc] decides: whatever the lines before it, as long as they
    decode, the resolver returns [LIBRESSL_VERSION=] followed by the
    second piece of that line.  A listing whose lines all decode and
    none of which is such a line raises [UnboundLocalError], and a line
    that does not decode raises [UnicodeDecodeError] even after a
    version has been found. *)
Theorem X12_last_signature_line before decoded_line after :
  (is_signature_line decoded_line = true ->
   Forall (fun d => is_signature_line d = false) after ->
   latest_libressl_of
     (Ok (map Some before ++ Some decoded_line :: map Some after)%list)
   = Ok ("LIBRESSL_VERSION="
         ++ nth 1 (Re.split libressl_pattern decoded_line) ""))
  /\ (Forall (fun d => is_signature_line d = false) after ->
      latest_libressl_of (Ok (map Some after)) = Raise UnboundLocalError)
  /\ (forall rest,
        latest_libressl_of (Ok (map Some before ++ None :: rest)%list)
        = Raise UnicodeDecodeError).
Proof.
  unfold latest_libressl_of. cbn [rbind].
  destruct (scan_lines_decodable before None) as (l' & Hl' & _).
  split; [|split].
  - intros Hsig Hafter.
    rewrite Hl', scan_lines_cons, Hsig, (scan_lines_no_signature _ _ Hafter).
    reflexivity.
  - intros Hafter. now rewrite (scan_lines_no_signature _ _ Hafter).
  - intros rest. now rewrite Hl'.
Qed.

Lemma X12_last_signature_line_witness :
  latest_libressl_of
    (Ok (map Some ["<a href=libressl-3.8.1.tar.gz.asc>"]
         ++ Some "<a href=libressl-3.8.2.tar.gz.asc>"
            :: map Some ["</body></html>"])%list)
  = Ok "LIBRESSL_VERSION=3.8.2".
Proof.
  apply (proj1 (X12_last_signature_line
                  ["<a href=libressl-3.8.1.tar.gz.asc>"]
                  "<a href=libressl-3.8.2.tar.gz.asc>"
                  ["</body></html>"])).
  - reflexivity.
  - repeat constructor.
Defined.

(** ** The version in a listing line *)

Lemma append_nil_r (s : string) : s ++ "" = s.
Proof. induction s as [|c s IH]; cbn; [reflexivity | now rewrite IH]. Qed.

Lemma split_unmatched (p rest : string) :
  unmatched p rest = true ->
  Re.split libressl_pattern (p ++ rest)
  = match Re.split libressl_pattern rest with
    | piece :: pieces => (p ++ piece) :: pieces
    | [] => [p]
    end.
Proof.
  unfold Re.split. induction p as [|c p IH]; cbn [unmatched].
  - intros _. pose proof (split_from_nonempty 0 rest) as N.
    cbn [append].
    destruct (Re.split_from libressl_pattern 0 rest); [cbn in N; lia|].
    reflexivity.
  - change (String c p ++ rest) with (String c (p ++ rest)).
    intros H. cbn [Re.split_from].
    destruct (Re.match_here libressl_pattern (String c (p ++ rest)));
      [discriminate H|].
    rewrite (IH H).
    pose proof (split_from_nonempty 0 rest) as N.
    destruct (Re.split_from libressl_pattern 0 rest); [cbn in N; lia|].
    reflexivity.
Qed.

Lemma split_at_name (x : string) :
  Re.split libressl_pattern ("libressl-" ++ x)
  = "" :: Re.split libressl_pattern x.
Proof. reflexivity. Qed.

Lemma split_at_suffix (x : string) :
  Re.split libressl_pattern (".tar.gz.asc" ++ x)
  = "" :: Re.split libressl_pattern x.
Proof. reflexivity. Qed.

Lemma contains_app (needle a b : string) :
  PyStr.contains needle (a ++ needle ++ b) = true.
Proof.
  induction a as [|c a IH]; cbn [append].
  - destruct (needle ++ b) eqn:E; cbn [PyStr.contains];
      rewrite <- E, startswith_app; reflexivity.
  - cbn [PyStr.contains]. rewrite IH. apply orb_true_r.
Qed.

(** A version made of characters other than [l] and [t] holds no match
    of the pattern. *)
Lemma plain_unmatched (v rest : string) :
  all_chars plain_char v = true ->
  unmatched v (".tar.gz.asc" ++ rest) = true.
Proof.
  induction v as [|c v IH]; [reflexivity|].
  cbn [all_chars]. intros H. apply andb_true_iff in H. destruct H as (Hc & Hv).
  cbn [unmatched]. rewrite match_here_libressl, (IH Hv).
  unfold plain_char in Hc. apply andb_true_iff in Hc. destruct Hc as (Hl & Ht).
  apply negb_true_iff in Hl.
  assert (E1 : PyStr.startswith "libressl-"
                 (String c v ++ ".tar.gz.asc" ++ rest) = false).
  { cbn [append PyStr.startswith]. now rewrite Ascii.eqb_sym, Hl. }
  rewrite E1.
  assert (E2 : Re.match_atoms
                 ([None] ++ Re.literal "tar" ++ [None] ++ Re.literal "gz"
                  ++ [None] ++ Re.literal "asc")
                 (String c v ++ ".tar.gz.asc" ++ rest) = false).
  { cbn [append app Re.literal Re.match_atoms].
    apply andb_false_intro2.
    destruct v as [|d v].
    - reflexivity.
    - cbn [all_chars] in Hv. apply andb_true_iff in Hv. destruct Hv as (Hd & _).
      unfold plain_char in Hd. apply andb_true_iff in Hd. destruct Hd as (_ & Hd).
      apply negb_true_iff in Hd.
      cbn [append Re.match_atoms]. now rewrite Ascii.eqb_sym, Hd. }
  now rewrite E2.
Qed.

(** X13: for a line made of a text without match, then [libressl-],
    a version without match, [.tar.gz.asc] and anything, the split gives
    the text, the version, and the pieces of what follows; so a listing
    with that one line resolves to [LIBRESSL_VERSION=<version>].  A
    version made of characters other than [l] and [t] is without
    match. *)
Theorem X13_version_of_line prefix v rest :
  unmatched prefix ("libressl-" ++ v ++ ".tar.gz.asc" ++ rest) = true ->
  unmatched v (".tar.gz.asc" ++ rest) = true ->
  Re.split libressl_pattern
    (prefix ++ "libressl-" ++ v ++ ".tar.gz.asc" ++ rest)
  = prefix :: v :: Re.split libressl_pattern rest
  /\ latest_libressl_of
       (Ok [Some (prefix ++ "libressl-" ++ v ++ ".tar.gz.asc" ++ rest)])
     = Ok ("LIBRESSL_VERSION=" ++ v).
Proof.
  intros Hp Hv.
  assert (E : Re.split libressl_pattern
                (prefix ++ "libressl-" ++ v ++ ".tar.gz.asc" ++ rest)
              = prefix :: v :: Re.split libressl_pattern rest).
  { rewrite (split_unmatched _ _ Hp), split_at_name.
    rewrite (split_unmatched _ _ Hv), split_at_suffix.
    now rewrite !append_nil_r. }
  split; [exact E|].
  unfold latest_libressl_of. cbn [rbind].
  rewrite scan_lines_cons. unfold is_signature_line.
  rewrite contains_app.
  replace (prefix ++ "libressl-" ++ v ++ ".tar.gz.asc" ++ rest)
    with ((prefix ++ "libressl-" ++ v) ++ ".tar.gz.asc" ++ rest) at 1
    by now rewrite !append_assoc.
  rewrite contains_app. cbn [andb scan_lines]. now rewrite E.
Qed.

Lemma X13_version_of_line_witness :
  latest_libressl_of
    (Ok [Some ("<a href=" ++ "libressl-" ++ "3.8.2" ++ ".tar.gz.asc" ++ ">")])
  = Ok "LIBRESSL_VERSION=3.8.2".
Proof.
  apply (proj2 (X13_version_of_line "<a href=" "3.8.2" ">" eq_refl
                  (plain_unmatched "3.8.2" ">" eq_refl))).
Defined.

(** ** The cleaned names *)

Lemma lower_char_not_upper (c : ascii) : not_upper (PyStr.lower_char c) = true.
Proof. destruct c as [[] [] [] [] [] [] [] []]; reflexivity. Qed.

Lemma lower_not_upper (s : string) : all_chars not_upper (PyStr.lower s) = true.
Proof.
  induction s as [|c s IH]; cbn [PyStr.lower all_chars]; [reflexivity|].
  now rewrite lower_char_not_upper, IH.
Qed.

Lemma lower_lower (s : string) :
  PyStr.lower (PyStr.lower s) = PyStr.lower s.
Proof.
  induction s as [|c s IH]; cbn [PyStr.lower]; [reflexivity|].
  rewrite IH. f_equal.
  destruct c as [[] [] [] [] [] [] [] []]; reflexivity.
Qed.

(** A text without capital letters does not start with, contain, or
    lose anything to a pattern that has one. *)
Lemma startswith_capital (old s : string) :
  all_chars not_upper old = false -> all_chars not_upper s = true ->
  PyStr.startswith old s = false.
Proof.
  revert s. induction old as [|a old IH]; intros [|b s]; cbn; try discriminate;
    try reflexivity.
  intros Ho Hs. apply andb_true_iff in Hs. destruct Hs as (Hb & Hs).
  destruct (Ascii.eqb_spec a b) as [->|]; [|reflexivity].
  rewrite Hb in Ho. cbn in Ho |- *. now apply IH.
Qed.

Lemma contains_capital (old s : string) :
  all_chars not_upper old = false -> all_chars not_upper s = true ->
  PyStr.contains old s = false.
Proof.
  intros Ho. induction s as [|b s IH]; intros Hs.
  - cbn [PyStr.contains]. now rewrite (startswith_capital _ _ Ho Hs).
  - cbn [PyStr.contains]. rewrite (startswith_capital _ _ Ho Hs).
    cbn [all_chars] in Hs. apply andb_true_iff in Hs. now apply IH.
Qed.

Lemma replace_capital (old new s : string) :
  all_chars not_upper old = false -> all_chars not_upper s = true ->
  PyStr.replace old new s = s.
Proof.
  intros Ho. unfold PyStr.replace.
  destruct old as [|a old]; [discriminate Ho|].
  induction s as [|b s IH]; intros Hs; [reflexivity|].
  cbn [PyStr.replace_from]. rewrite (startswith_capital _ _ Ho Hs).
  cbn [all_chars] in Hs. apply andb_true_iff in Hs. now rewrite IH.
Qed.

(** X14: the two cleaning helpers give a text without capital letters
    A to Z, which therefore contains neither [_VERSION] nor [USE_], and
    cleaning a cleaned text changes nothing. *)
Theorem X14_cleaned_names (s : string) :
  all_chars not_upper (clean_ssl s) = true
  /\ all_chars not_upper (clean_compression s) = true
  /\ PyStr.contains "_VERSION" (clean_ssl s) = false
  /\ PyStr.contains "USE_" (clean_compression s) = false
  /\ clean_ssl (clean_ssl s) = clean_ssl s
  /\ clean_compression (clean_compression s) = clean_compression s.
Proof.
  assert (A : all_chars not_upper (clean_ssl s) = true) by apply lower_not_upper.
  assert (B : all_chars not_upper (clean_compression s) = true)
    by apply lower_not_upper.
  repeat split; try assumption.
  - now apply contains_capital.
  - now apply contains_capital.
  - unfold clean_ssl at 1. rewrite replace_capital by (reflexivity || exact A).
    apply lower_lower.
  - unfold clean_compression at 1.
    rewrite replace_capital by (reflexivity || exact B).
    apply lower_lower.
Qed.

(** ** The requests of a run *)

(** X15: whatever the command line and the world, every request of a
    run goes to one of the two URLs; the [Authorization] header, made of
    [GITHUB_TOKEN], is sent to the OpenSSL tags URL only, and the
    LibreSSL listing is requested without any header.  The first
    request, if any, is for the tags, and the listing is requested only
    once the OpenSSL resolver has returned. *)
Theorem X15_requests argv w :
  Forall (fun r =>
            (url_of r = openssl_url
             /\ headers_of r
                = match GITHUB_TOKEN w with
                  | Some token => [("Authorization", "token " ++ token)]
                  | None => []
                  end)
            \/ (url_of r = libressl_url /\ headers_of r = []))
         (requests (snd (run argv w)))
  /\ (requests (snd (run argv w)) = []
      \/ hd_error (requests (snd (run argv w))) = Some (openssl_request w))
  /\ (In (Get libressl_url []) (requests (snd (run argv w))) ->
      exists vo, openssl_outcome (openssl_tags w 0) = Ok vo).
Proof.
  destruct (requests_of_run argv w) as [-> | ->].
  - split; [constructor|]. split; [now left|]. intros [].
  - unfold dev_requests. split; [|split].
    + constructor; [left; split; reflexivity|].
      destruct (openssl_outcome (openssl_tags w 0)); [|constructor].
      constructor; [right; split; reflexivity|].
      destruct (libressl_outcome (libressl_listing w 0)) as [vl|];
        [|constructor].
      destruct (retested vl); repeat constructor.
    + now right.
    + destruct (openssl_outcome (openssl_tags w 0)) as [vo|e]; [eauto|].
      intros [H|[]]. unfold openssl_request in H. discriminate H.
Qed.

Lemma X15_requests_witness :
  exists vo, openssl_outcome (openssl_tags in_ci 0) = Ok vo.
Proof.
  apply (proj2 (proj2 (X15_requests ["matrix.py"; "master"] in_ci))).
  vm_compute. right. left. reflexivity.
Defined.

Example requests_in_ci :
  requests (snd (run ["matrix.py"; "master"] in_ci))
  = [Get openssl_url [("Authorization", "token s3cr3t")];
     Get libressl_url []].
Proof. vm_compute. reflexivity. Qed.

(** X16: in any run the LibreSSL listing is requested at most once and
    the OpenSSL tags at most twice, at most once unless the resolved
    LibreSSL string contains both [OPENSSL] and [latest]; and when the
    run completes, the two compilers carry the same [ssl] strings,
    entry by entry: the second leg is answered from the caches. *)
Theorem X16_fetches_per_run argv w :
  count_url libressl_url (requests (snd (run argv w))) <= 1
  /\ count_url openssl_url (requests (snd (run argv w))) <= 2
  /\ ((forall vl, libressl_outcome (libressl_listing w 0) = Ok vl ->
                  retested vl = false) ->
      count_url openssl_url (requests (snd (run argv w))) <= 1)
  /\ (fst (run argv w) = Ok tt ->
      map (item "ssl") (linux_entries "gcc" (matrix (snd (run argv w))))
      = map (item "ssl") (linux_entries "clang" (matrix (snd (run argv w))))).
Proof.
  destruct (memoization_per_marker argv w) as (A & B & C & _ & _ & D).
  repeat split; assumption.
Qed.

Lemma X16_fetches_per_run_witness :
  count_url openssl_url (requests (snd (run ["matrix.py"; "master"] online))) <= 1
  /\ map (item "ssl")
         (linux_entries "gcc" (matrix (snd (run ["matrix.py"; "master"] online))))
     = map (item "ssl")
         (linux_entries "clang" (matrix (snd (run ["matrix.py"; "master"] online)))).
Proof.
  destruct (X16_fetches_per_run ["matrix.py"; "master"] online)
    as (_ & _ & H1 & H2).
  split.
  - apply H1. intros vl Hvl. vm_compute in Hvl. injection Hvl as <-.
    vm_compute. reflexivity.
  - apply H2. vm_compute. reflexivity.
Defined.

(** ** The TLS loop on markers without [latest] *)

(** X17: on any list of markers none of which contains [latest], the
    TLS loop calls no resolver: it raises nothing, sends no request,
    leaves the caches and the output alone, and appends one entry per
    marker, in order, each with the marker itself under [ssl] and in its
    name, and with the flags of that marker. *)
Theorem X17_markers_without_latest w os T cc (markers : list string) s :
  Forall (fun m => PyStr.contains "latest" m = false) markers ->
  fst (for_each markers (ssl_step w os T cc) s) = Ok tt
  /\ requests (snd (for_each markers (ssl_step w os T cc) s)) = requests s
  /\ openssl_cache (snd (for_each markers (ssl_step w os T cc) s))
     = openssl_cache s
  /\ libressl_cache (snd (for_each markers (ssl_step w os T cc) s))
     = libressl_cache s
  /\ stdout (snd (for_each markers (ssl_step w os T cc) s)) = stdout s
  /\ matrix (snd (for_each markers (ssl_step w os T cc) s))
     = (matrix s
        ++ map (fun m =>
                  entry (os ++ ", " ++ cc ++ ", ssl=" ++ clean_ssl m) os T cc
                        (Some m) (ssl_flags m)) markers)%list.
Proof.
  intros H. rewrite (for_each_pinned _ _ _ _ _ _ H). repeat split.
Qed.

Lemma X17_markers_without_latest_witness :
  matrix (snd (for_each ["stock"; "BORINGSSL=yes"]
                 (ssl_step online "ubuntu-latest" "linux-glibc" "gcc") initial))
  = [ entry "ubuntu-latest, gcc, ssl=stock" "ubuntu-latest" "linux-glibc"
            "gcc" (Some "stock") ["USE_OPENSSL=1"];
      entry "ubuntu-latest, gcc, ssl=boringssl=yes" "ubuntu-latest"
            "linux-glibc" "gcc" (Some "BORINGSSL=yes")
            ["USE_OPENSSL=1"; "USE_QUIC=1"; "SSL_LIB=${HOME}/opt/lib";
             "SSL_INC=${HOME}/opt/include"] ].
Proof.
  apply (proj2 (proj2 (proj2 (proj2 (proj2
           (X17_markers_without_latest online "ubuntu-latest" "linux-glibc"
              "gcc" ["stock"; "BORINGSSL=yes"] initial
              ltac:(repeat constructor))))))).
Defined.

(** ** The display names *)

Lemma slice_from_app (p d : string) :
  PyStr.slice_from (String.length p) (p ++ d) = d.
Proof. induction p as [|c p IH]; cbn; [now destruct d | exact IH]. Qed.

Lemma descriptor_kind_entry_name (os cc d : string) :
  descriptor_kind os cc (entry_name os cc d)
  = if String.eqb d "no features" then NoFeatures
    else if String.eqb d "all features" then AllFeatures
    else if String.eqb d "ASAN, all features" then AsanAllFeatures
    else if PyStr.startswith "gz=" d then Gz
    else if PyStr.startswith "ssl=" d then Ssl
    else Other.
Proof.
  assert (E : entry_name os cc d = (os ++ ", " ++ cc ++ ", ") ++ d).
  { unfold entry_name. now rewrite !append_assoc. }
  unfold descriptor_kind. cbv zeta.
  now rewrite E, startswith_app, slice_from_app.
Qed.

(** X18: in the matrix of a run that completes every entry has its
    [FLAGS], and its name follows its other fields: an entry without
    [ssl] is named [<os>, <CC>, ] followed by [no features],
    [all features], [ASAN, all features] or a [gz=] descriptor, and an
    entry with [ssl] equal to [v] is named
    [<os>, <CC>, ssl=] followed by [clean_ssl v]. *)
Theorem X18_display_names prog ref w :
  fst (run [prog; ref] w) = Ok tt ->
  Forall (fun d =>
            (exists flags, item "FLAGS" d = Some (PList (map PStr flags)))
            /\ ((item "ssl" d = None
                 /\ In (kind_of d)
                       [NoFeatures; AllFeatures; AsanAllFeatures; Gz])
                \/ (exists v,
                      item "ssl" d = Some (PStr v)
                      /\ kind_of d = Ssl
                      /\ str_item "name" d
                         = str_item "os" d ++ ", " ++ str_item "CC" d
                           ++ ", ssl=" ++ clean_ssl v)))
         (matrix (snd (run [prog; ref] w))).
Proof.
  intros Hok. destruct (run_ok _ _ _ Hok) as (tls & _ & _ & Hm & _).
  rewrite Hm. apply Forall_to_dict, Forall_matrix_entries.
  - intros cc. unfold fixed_entries.
    repeat (constructor;
            [split; [eexists; apply item_flags_to_dict|];
             left; split; [reflexivity|];
             unfold kind_of; cbn [str_item item to_dict entry app items_get
                                  String.eqb Ascii.eqb Bool.eqb e_name e_os
                                  e_TARGET e_CC e_ssl e_FLAGS];
             rewrite descriptor_kind_entry_name; cbn; tauto|]).
    constructor.
  - intros cc mr _. split; [eexists; apply item_flags_to_dict|].
    right. exists (snd mr). split; [reflexivity|]. split; [|reflexivity].
    unfold kind_of, ssl_entry.
    cbn [str_item item to_dict entry app items_get String.eqb Ascii.eqb
         Bool.eqb e_name e_os e_TARGET e_CC e_ssl e_FLAGS].
    rewrite descriptor_kind_entry_name. reflexivity.
  - split; [eexists; apply item_flags_to_dict|].
    left. split; [reflexivity|].
    unfold kind_of, macos_entry.
    cbn [str_item item to_dict entry app items_get String.eqb Ascii.eqb
         Bool.eqb e_name e_os e_TARGET e_CC e_ssl e_FLAGS].
    rewrite descriptor_kind_entry_name. cbn. tauto.
Qed.

Lemma X18_display_names_witness :
  Forall (fun d =>
            (exists flags, item "FLAGS" d = Some (PList (map PStr flags)))
            /\ ((item "ssl" d = None
                 /\ In (kind_of d)
                       [NoFeatures; AllFeatures; AsanAllFeatures; Gz])
                \/ (exists v,
                      item "ssl" d = Some (PStr v)
                      /\ kind_of d = Ssl
                      /\ str_item "name" d
                         = str_item "os" d ++ ", " ++ str_item "CC" d
                           ++ ", ssl=" ++ clean_ssl v)))
         (matrix (snd (run ["matrix.py"; "master"] online))).
Proof.
  apply (X18_display_names "matrix.py" "master" online).
  vm_compute. reflexivity.
Defined.

(** ** The two resolved entries of a development run *)

Lemma openssl_outcome_shape r v :
  openssl_outcome r = Ok v -> exists x, v = "OPENSSL_VERSION=" ++ x.
Proof.
  destruct r as [|body]; cbn [openssl_outcome].
  - intros H. injection H as <-. now exists "failed_to_detect".
  - unfold latest_openssl_of. destruct body as [tags|e]; cbn [rbind];
      [|discriminate].
    destruct (iterate tags) as [l|e]; cbn [rbind]; [|discriminate].
    destruct (scan_tags l "") as [m|e]; cbn [rbind]; [|discriminate].
    intros H. injection H as <-. eexists. reflexivity.
Qed.

Lemma dev_resolution_shape w vo vl :
  dev_resolution w = Ok (vo, vl) ->
  (exists x, vo = "OPENSSL_VERSION=" ++ x)
  /\ exists lib x,
       (lib = "LIBRESSL" \/ lib = "OPENSSL") /\ vl = lib ++ "_VERSION=" ++ x.
Proof.
  unfold dev_resolution.
  destruct (openssl_outcome (openssl_tags w 0)) as [vo'|e] eqn:Eo;
    cbn [rbind]; [|discriminate].
  destruct (libressl_outcome (libressl_listing w 0)) as [vl'|e] eqn:El;
    cbn [rbind]; [|discriminate].
  destruct (retested vl').
  - destruct (openssl_outcome (openssl_tags w 1)) as [v2|e] eqn:E2;
      cbn [rbind]; [|discriminate].
    intros H. injection H as <- <-. split; [eapply openssl_outcome_shape, Eo|].
    destruct (openssl_outcome_shape _ _ E2) as (x & ->).
    exists "OPENSSL", x. auto.
  - intros H. injection H as <- <-. split; [eapply openssl_outcome_shape, Eo|].
    destruct (libressl_outcome_shape _ _ El) as (x & ->).
    exists "LIBRESSL", x. auto.
Qed.

(** X19: in a development run that completes, the ninth and tenth
    entries of each compiler are the resolved ones.  The ninth has an
    [ssl] of the form [OPENSSL_VERSION=<x>] and the name
    [ubuntu-latest, <CC>, ssl=openssl=<x cleaned>]; the tenth has an
    [ssl] of the form [LIBRESSL_VERSION=<y>] or [OPENSSL_VERSION=<y>]
    and the name to match; both keep the flags of their [latest]
    markers. *)
Theorem X19_resolved_entries prog ref w cc :
  PyStr.contains "haproxy-" ref = false ->
  fst (run [prog; ref] w) = Ok tt ->
  In cc ["gcc"; "clang"] ->
  exists x lib y,
    (lib = "LIBRESSL" \/ lib = "OPENSSL")
    /\ skipn 8 (linux_entries cc (matrix (snd (run [prog; ref] w))))
       = [ entry ("ubuntu-latest, " ++ cc ++ ", ssl=openssl=" ++ clean_ssl x)
                 "ubuntu-latest" "linux-glibc" cc
                 (Some ("OPENSSL_VERSION=" ++ x))
                 ["USE_OPENSSL=1"; "SSL_LIB=${HOME}/opt/lib";
                  "SSL_INC=${HOME}/opt/include"];
           entry ("ubuntu-latest, " ++ cc ++ ", ssl=" ++ PyStr.lower lib
                  ++ "=" ++ clean_ssl y)
                 "ubuntu-latest" "linux-glibc" cc
                 (Some (lib ++ "_VERSION=" ++ y))
                 ["USE_OPENSSL=1"; "USE_QUIC=1"; "SSL_LIB=${HOME}/opt/lib";
                  "SSL_INC=${HOME}/opt/include"] ].
Proof.
  intros Hdev Hok Hcc.
  destruct (run_ok _ _ _ Hok) as (tls & Hres & _ & Hm & _).
  rewrite Hm, (linux_entries_matrix _ _ _ Hcc).
  destruct (resolution_shape _ _ _ Hres)
    as [(Hst & _)|(Hst & vo & vl & Hvv & ->)].
  { unfold stable in Hst. congruence. }
  destruct (dev_resolution_shape _ _ _ Hvv)
    as ((x & ->) & lib & y & Hlib & ->).
  exists x, lib, y. split; [exact Hlib|].
  unfold linux_os. rewrite Hst.
  destruct Hcc as [<-|[<-|[]]]; destruct Hlib as [-> | ->]; reflexivity.
Qed.

Lemma X19_resolved_entries_witness :
  exists x lib y,
    (lib = "LIBRESSL" \/ lib = "OPENSSL")
    /\ map (item "ssl")
           (skipn 8 (linux_entries "gcc"
                       (matrix (snd (run ["matrix.py"; "master"] online)))))
       = [ Some (PStr ("OPENSSL_VERSION=" ++ x));
           Some (PStr (lib ++ "_VERSION=" ++ y)) ].
Proof.
  destruct (X19_resolved_entries "matrix.py" "master" online "gcc")
    as (x & lib & y & Hlib & H).
  - reflexivity.
  - vm_compute. reflexivity.
  - left. reflexivity.
  - exists x, lib, y. split; [exact Hlib|]. now rewrite H.
Defined.
